(** * QR code generator: canvas composition and export

    A shallow embedding of [src/app/qr/page.tsx] (the [QRContent] component:
    [createQRCodeImage], [setCanvasFont], [createQRCanvas], [downloadAsImage],
    [downloadAsPDF] and the render guards) together with the properties the
    specification states about them.

    Modelling conventions.
    - A JavaScript [number] is an element of a type [N] carrying the
      operations the source uses (class [JSNumber]).  Two interpretations
      are given: IEEE binary64 ([float], what the browser computes) and
      exact rationals ([Q], used to state geometric facts such as
      "centered" without rounding).
    - A 2D canvas is the trace of calls made on its rendering context, in
      program order.  Rendering is a function of that trace, so equal traces
      mean equal pixels.
    - A promise that has settled is a value of [Promise]: [Resolved] or
      [Rejected].  [await] is the bind of that type.
    - Everything the browser or a third-party library decides (whether an
      image source decodes, what the QR encoder answers, the clock, the page
      size of the PDF library) is read from a [World] record. *)

From Stdlib Require Import ZArith List String Bool Lia DecimalString.
From Stdlib Require DecimalZ DecimalPos.
From Stdlib Require Import QArith Qminmax Qround Lqa.
From Stdlib Require Import Floats.PrimFloat.
Import ListNotations.

Set Implicit Arguments.

(** ** JavaScript numbers *)

Class JSNumber (N : Type) := {
  (** an integer literal *)
  num : Z -> N;
  (** a decimal literal [m / 10^e], e.g. [dec 75 2] for [0.75] *)
  dec : Z -> nat -> N;
  nadd : N -> N -> N;
  nsub : N -> N -> N;
  nmul : N -> N -> N;
  ndiv : N -> N -> N;
  (** [Math.floor] *)
  math_floor : N -> N;
  (** [Math.min] of two arguments *)
  math_min : N -> N -> N
}.

Declare Scope js_scope.
Delimit Scope js_scope with js.
Notation "a + b" := (nadd a b) : js_scope.
Notation "a - b" := (nsub a b) : js_scope.
Notation "a * b" := (nmul a b) : js_scope.
Notation "a / b" := (ndiv a b) : js_scope.

(** *** Exact rationals *)

Module ExactNum.

Definition decimal (m : Z) (e : nat) : Q :=
  Qmake m (Z.to_pos (10 ^ Z.of_nat e)).

#[global] Instance Q_JSNumber : JSNumber Q := {|
  num := inject_Z;
  dec := decimal;
  nadd := Qplus;
  nsub := Qminus;
  nmul := Qmult;
  ndiv := Qdiv;
  math_floor := fun q => inject_Z (Qfloor q);
  math_min := Qmin
|}.

End ExactNum.

(** *** IEEE binary64 *)

Module Binary64.

Local Open Scope float_scope.

(** Conversion of an integer, exact below [2^53]. *)
Fixpoint of_pos (p : positive) : float :=
  match p with
  | xH => 1
  | xO p' => 2 * of_pos p'
  | xI p' => 2 * of_pos p' + 1
  end.

Definition of_Z (z : Z) : float :=
  match z with
  | Z0 => 0
  | Zpos p => of_pos p
  | Zneg p => - of_pos p
  end.

(** A decimal literal denotes the double nearest to it; for the short
    literals of the program both [m] and [10^e] are exact and the division
    rounds once. *)
Definition decimal (m : Z) (e : nat) : float :=
  of_Z m / of_Z (10 ^ Z.of_nat e).

(** [2^52]: from here on every double is an integer. *)
Definition two52 : float := 4503599627370496.

(** [Math.floor]: [NaN], the infinities and integers are returned as they
    are; otherwise adding and subtracting [2^52] rounds the magnitude to
    an integer, corrected by one when the rounding went the wrong way. *)
Definition floor (x : float) : float :=
  if is_nan x || is_infinity x then x
  else if two52 <=? abs x then x
  else if 0 <=? x then
    let r := (x + two52) - two52 in
    if x <? r then r - 1 else r
  else
    let a := - x in
    let r := (a + two52) - two52 in
    - (if r <? a then r + 1 else r).

(** [Math.min]: [NaN] if an argument is [NaN]; [-0] is below [+0]. *)
Definition min (a b : float) : float :=
  if is_nan a || is_nan b then nan
  else if a <? b then a
  else if b <? a then b
  else if get_sign a then a else b.

#[global] Instance float_JSNumber : JSNumber float := {|
  num := of_Z;
  dec := decimal;
  nadd := PrimFloat.add;
  nsub := PrimFloat.sub;
  nmul := PrimFloat.mul;
  ndiv := PrimFloat.div;
  math_floor := floor;
  math_min := min
|}.

End Binary64.

(** ** Values of the program *)

(** A JavaScript [Error], identified by its message. *)
Record Error := mkError { message : string }.

(** A settled promise. *)
Inductive Promise (A : Type) : Type :=
| Resolved (a : A)
| Rejected (e : Error).
Arguments Resolved {A} a.
Arguments Rejected {A} e.

Definition await {A B : Type} (p : Promise A) (k : A -> Promise B) : Promise B :=
  match p with
  | Resolved a => k a
  | Rejected e => Rejected e
  end.

Declare Scope promise_scope.
Delimit Scope promise_scope with promise.
Notation "'let!' x ':=' p 'in' k" := (await p (fun x => k))
  (at level 10, x name, p at level 100, k at level 200) : promise_scope.

(** JavaScript truthiness of a string: every string but the empty one. *)
Definition truthy (s : string) : bool :=
  match s with
  | EmptyString => false
  | String _ _ => true
  end.

(** [interface QRData]. *)
Record QRData := mkQRData {
  details : string;
  license : string;
  officeName : string;
  officeLogo : string
}.

(** ** The QR encoder of the [qrcode] package

    [QRCode.toDataURL(text, options, callback)].  The options object is the
    package's [QRCodeToDataURLOptions]; every member is optional and a member
    that is left out takes the package's default. *)

Inductive ECLevel := LevelL | LevelM | LevelQ | LevelH.

Record QRColor := mkQRColor {
  dark : option string;
  light : option string
}.

Record QRCodeOptions (N : Type) := mkQRCodeOptions {
  opt_width : option N;
  opt_margin : option N;
  opt_color : option QRColor;
  opt_errorCorrectionLevel : option ECLevel
}.

(** The level the encoder works at: the one asked for, else its default. *)
Definition effectiveLevel {N : Type} (packageDefault : ECLevel)
    (o : QRCodeOptions N) : ECLevel :=
  match opt_errorCorrectionLevel o with
  | Some l => l
  | None => packageDefault
  end.

(** What a call of [QRCode.toDataURL] does: throw, call back with an error,
    or call back with the data URL of the symbol. *)
Inductive EncodeOutcome :=
| EncThrow (e : Error)
| EncError (e : Error)
| EncUrl (url : string).

(** What reading the session record does: [localStorage.getItem(dataKey)]
    followed by [JSON.parse]. *)
Inductive StorageOutcome :=
| GetItemThrows (e : Error)
| NoItem
| ParseThrows (e : Error)
| Parsed (d : QRData).

(** ** Canvases and images *)

Section Canvas.

Variable N : Type.

(** One call on a [CanvasRenderingContext2D], or one assignment to one of
    its properties.  An image is known by what its [src] was set to: a URL,
    or the [toDataURL()] of a canvas of a given size and trace. *)
Inductive CtxCall : Type :=
| SetFillStyle (color : string)
| SetTextAlign (align : string)
| SetTextBaseline (baseline : string)
| SetFont (fontWeight : string) (fontSize : N) (fontStack : string)
| FillRect (x y w h : N)
| FillText (text : string) (x y : N)
| BeginPath
| RoundRect (x y w h radii : N)
| Fill
| DrawImage (image : Image) (dx dy dw dh : N)
with Image : Type :=
| ImageOfUrl (src : string)
| ImageOfCanvas (w h : N) (calls : list CtxCall).

Record Canvas := mkCanvas {
  width : N;
  height : N;
  trace : list CtxCall
}.

(** [canvas.toDataURL()] used as the [src] of a new image. *)
Definition toDataURL (c : Canvas) : Image :=
  ImageOfCanvas (width c) (height c) (trace c).

(** [ctx.<call>] on the context of [c]. *)
Definition ctx (c : Canvas) (call : CtxCall) : Canvas :=
  mkCanvas (width c) (height c) (trace c ++ [call]).

(** The environment of one run. *)
Record World := mkWorld {
  (** the answer of [QRCode.toDataURL] *)
  qrEncode : string -> QRCodeOptions N -> EncodeOutcome;
  (** whether setting this [src] fires [onload] ([true]) or [onerror] *)
  imageLoads : Image -> bool;
  (** whether [canvas.getContext("2d")] returns a context *)
  context2d : bool;
  (** [localStorage.getItem(key)] and the parse of what it returns *)
  storedData : string -> StorageOutcome;
  (** [new Date().getTime()] *)
  now : Z;
  (** [pdf.internal.pageSize.getWidth()] and [getHeight()] *)
  pageWidth : N;
  pageHeight : N
}.

End Canvas.

Arguments SetFillStyle {N} color.
Arguments SetTextAlign {N} align.
Arguments SetTextBaseline {N} baseline.
Arguments BeginPath {N}.
Arguments Fill {N}.
Arguments ImageOfUrl {N} src.

Notation "c '<|' call" := (ctx c call) (at level 50, left associativity).

(** ** The component [QRContent] *)

Section QRContent.

Context {N : Type} {JSN : JSNumber N}.
Variable W : World N.

Local Open Scope js_scope.
Local Open Scope promise_scope.
Local Open Scope string_scope.

(** The options literal of the call of [QRCode.toDataURL] in
    [createQRCodeImage]. *)
Definition toDataURLOptions (size : N) : QRCodeOptions N :=
  {| opt_width := Some size;
     opt_margin := Some (num 1);
     opt_color := Some {| dark := Some "#000000"; light := Some "#FFFFFF" |};
     opt_errorCorrectionLevel := None |}.

(** [const finalImg = new Image(); finalImg.onload = () => resolve(finalImg);
    finalImg.onerror = () => reject(...); finalImg.src = canvas.toDataURL()]:
    the block that ends each of the three branches of [createQRCodeImage]. *)
Definition resolveFinalImg (canvas : Canvas N) : Promise (Image N) :=
  let finalImg := toDataURL canvas in
  if imageLoads W finalImg then Resolved finalImg
  else Rejected (mkError "Failed to create QR code image").

(** [createQRCodeImage(value, size, showLogo)].  The context of the
    scratch canvas is taken with a non-null assertion in the source and is
    taken as present here. *)
Definition createQRCodeImage (value : string) (size : N) (showLogo : bool)
  : Promise (Image N) :=
  match qrEncode W value (toDataURLOptions size) with
  | EncThrow error => Rejected error
  | EncError err => Rejected err
  | EncUrl url =>
    let qrImg := ImageOfUrl url in
    if imageLoads W qrImg then
      let canvas := mkCanvas size size [] in
      let canvas := canvas <| DrawImage qrImg (num 0) (num 0) size size in
      if showLogo then
        let logoContainerSize := size / num 5 in
        let centerX := size / num 2 in
        let centerY := size / num 2 in
        let borderRadius := logoContainerSize * dec 2 1 in
        let canvas := canvas <| SetFillStyle "#FFFFFF" in
        let canvas := canvas <| BeginPath in
        let canvas := canvas <| RoundRect
                        (centerX - logoContainerSize / num 2)
                        (centerY - logoContainerSize / num 2)
                        logoContainerSize
                        logoContainerSize
                        borderRadius in
        let canvas := canvas <| Fill in
        let padding := logoContainerSize * dec 8 2 in
        let logoAreaSize := logoContainerSize - padding * num 2 in
        let logoImg : Image N := ImageOfUrl "/logo/logo.png" in
        if imageLoads W logoImg then
          let logoX := centerX - logoAreaSize / num 2 in
          let logoY := centerY - logoAreaSize / num 2 in
          let canvas := canvas <| DrawImage logoImg logoX logoY
                                    logoAreaSize logoAreaSize in
          resolveFinalImg canvas
        else
          resolveFinalImg canvas
      else
        resolveFinalImg canvas
    else Rejected (mkError "Failed to load QR code")
  end.

(** [setCanvasFont(ctx, fontSize, fontWeight)]: the assignment to
    [ctx.font], with the three parts of the template kept apart. *)
Definition setCanvasFont (canvas : Canvas N) (fontSize : N)
    (fontWeight : string) : Canvas N :=
  let fontStack := "Tajawal, Segoe UI, Tahoma, Arial, sans-serif" in
  canvas <| SetFont fontWeight fontSize fontStack.

(** [createQRCanvas()], reading the component state [qrData]. *)
Definition createQRCanvas (qrData : option QRData) : Promise (Canvas N) :=
  match qrData with
  | None => Rejected (mkError "No QR data available")
  | Some qrData =>
    if negb (context2d W) then
      Rejected (mkError "Could not get canvas context")
    else
      let width := num 1200 in
      let height := num 1600 in
      let canvas := mkCanvas width height [] in
      let canvas := canvas <| SetFillStyle "#ffffff" in
      let canvas := canvas <| FillRect (num 0) (num 0) width height in
      let canvas := canvas <| SetFillStyle "#000000" in
      let canvas := canvas <| SetTextAlign "center" in
      let canvas := canvas <| SetTextBaseline "middle" in
      let currentY := num 100 in
      let! office :=
        (if truthy (officeName qrData) || truthy (officeLogo qrData) then
           let! logo :=
             (if truthy (officeLogo qrData) then
                let logoImg : Image N := ImageOfUrl (officeLogo qrData) in
                let! _ :=
                  (if imageLoads W logoImg then Resolved true
                   else Rejected (mkError "Failed to load office logo")) in
                let logoSize := num 120 in
                let canvas := canvas <| DrawImage logoImg
                                (width / num 2 - logoSize / num 2)
                                currentY logoSize logoSize in
                let currentY := currentY + (logoSize + num 30) in
                Resolved (canvas, currentY)
              else Resolved (canvas, currentY)) in
           let (canvas, currentY) := logo in
           if truthy (officeName qrData) then
             let canvas := setCanvasFont canvas (num 32) "bold" in
             let canvas := canvas <| FillText "المكتب الوسيط"
                                       (width / num 2) currentY in
             let currentY := currentY + num 40 in
             let canvas := setCanvasFont canvas (num 28) "normal" in
             let canvas := canvas <| FillText (officeName qrData)
                                       (width / num 2) currentY in
             let currentY := currentY + num 80 in
             Resolved (canvas, currentY)
           else Resolved (canvas, currentY)
         else Resolved (canvas, currentY)) in
      let (canvas, currentY) := office in
      let mainQRSize := math_floor (width * dec 75 2) in
      let! mainQRImg := createQRCodeImage (details qrData) mainQRSize true in
      let canvas := canvas <| DrawImage mainQRImg
                      (width / num 2 - mainQRSize / num 2)
                      currentY mainQRSize mainQRSize in
      let currentY := currentY + (mainQRSize + num 50) in
      let canvas := setCanvasFont canvas (num 32) "bold" in
      let canvas := canvas <| FillText "تفاصيل العقار ومالك العقار"
                                (width / num 2) currentY in
      let currentY := currentY + num 80 in
      let currentY := currentY + num 30 in
      let licenseSectionHeight := num 200 in
      let licenseSectionY := currentY in
      let canvas := canvas <| SetFillStyle "#f8f9fa" in
      let canvas := canvas <| FillRect (num 50) licenseSectionY
                                (width - num 100) licenseSectionHeight in
      let canvas := canvas <| SetFillStyle "#000000" in
      let licenseCenterY := licenseSectionY + licenseSectionHeight / num 2 in
      let! licenseQRImg :=
        createQRCodeImage (license qrData) (num 150) false in
      let canvas := canvas <| DrawImage licenseQRImg (num 150)
                                (licenseCenterY - num 75)
                                (num 150) (num 150) in
      let canvas := setCanvasFont canvas (num 28) "bold" in
      let canvas := canvas <| SetTextAlign "right" in
      let canvas := canvas <| FillText "رخصة الإعلان من هيئة العقار"
                                (width - num 150) licenseCenterY in
      Resolved canvas
  end.

(** *** Exporters *)

(** An image placed by [pdf.addImage(imageData, format, x, y, w, h)]. *)
Record PdfImage := mkPdfImage {
  imageData : Image N;
  imageFormat : string;
  pdf_x : N;
  pdf_y : N;
  pdf_w : N;
  pdf_h : N
}.

(** A [jsPDF] document: its constructor options and its pages, each with
    the images placed on it. *)
Record PdfDoc := mkPdfDoc {
  orientation : string;
  unit_ : string;
  format : string;
  pages : list (list PdfImage)
}.

(** [new jsPDF(options)] starts with one empty page. *)
Definition jsPDF (orientation unit_ format : string) : PdfDoc :=
  mkPdfDoc orientation unit_ format [[]].

(** [addImage] draws on the current page, the last one. *)
Definition addImage (pdf : PdfDoc) (i : PdfImage) : PdfDoc :=
  mkPdfDoc (orientation pdf) (unit_ pdf) (format pdf)
    (match rev (pages pdf) with
     | [] => [[i]]
     | current :: before => rev before ++ [current ++ [i]]
     end)%list.

(** What the user can observe of a handler, in program order.
    [CreateQRCanvas] records a call of [createQRCanvas] with the promise it
    returned. *)
Inductive Effect :=
| Alert (msg : string)
| ConsoleError (label : string) (error : Error)
| CreateQRCanvas (result : Promise (Canvas N))
| LinkClick (download : string) (href : Image N)
| PdfSave (filename : string) (pdf : PdfDoc).

(** The state of the component and the effects so far. *)
Record State := mkState {
  isDownloading : string;
  qrData : option QRData;
  isLoading : bool;
  effects : list Effect
}.

Definition initialState : State := mkState "" None true [].

Definition setIsDownloading (v : string) (s : State) : State :=
  mkState v (qrData s) (isLoading s) (effects s).
Definition setQrData (v : QRData) (s : State) : State :=
  mkState (isDownloading s) (Some v) (isLoading s) (effects s).
Definition setIsLoading (v : bool) (s : State) : State :=
  mkState (isDownloading s) (qrData s) v (effects s).
Definition effect (e : Effect) (s : State) : State :=
  mkState (isDownloading s) (qrData s) (isLoading s) (effects s ++ [e])%list.

Definition string_of_Z (z : Z) : string := NilZero.string_of_int (Z.to_int z).

(** The effect hook that loads the record named by [dataKey]. *)
Definition loadQRData (dataKey : string) (s : State) : State :=
  if truthy dataKey then
    let s :=
      match storedData W dataKey with
      | GetItemThrows error | ParseThrows error =>
          effect (ConsoleError "Error loading QR data:" error) s
      | NoItem => s
      | Parsed parsedData => setQrData parsedData s
      end in
    setIsLoading false s
  else setIsLoading false s.

(** [downloadAsImage]. *)
Definition downloadAsImage (s : State) : State :=
  match qrData s with
  | None => effect (Alert "لا توجد بيانات متاحة للتحميل") s
  | Some _ =>
    let s := setIsDownloading "image" s in
    let result := createQRCanvas (qrData s) in
    let s := effect (CreateQRCanvas result) s in
    let s :=
      match result with
      | Resolved canvas =>
          effect (LinkClick ("رمز-QR-العقاري-" ++ string_of_Z (now W) ++ ".png")
                            (toDataURL canvas)) s
      | Rejected error =>
          let s := effect (ConsoleError "Error downloading image:" error) s in
          effect (Alert "حدث خطأ أثناء حفظ الصورة") s
      end in
    setIsDownloading "" s
  end.

(** Lines 123 to 130 of [downloadAsPDF]: where and how large the bitmap is
    drawn on the page, as [(x, y, width, height)]. *)
Definition pdfPlacement (pdfWidth pdfHeight imgWidth imgHeight : N)
  : N * N * N * N :=
  let ratio :=
    math_min (pdfWidth / imgWidth) (pdfHeight / imgHeight) * dec 95 2 in
  let width := imgWidth * ratio in
  let height := imgHeight * ratio in
  let x := (pdfWidth - width) / num 2 in
  let y := (pdfHeight - height) / num 2 in
  (x, y, width, height).

(** [downloadAsPDF]. *)
Definition downloadAsPDF (s : State) : State :=
  match qrData s with
  | None => effect (Alert "لا توجد بيانات متاحة للتحميل") s
  | Some _ =>
    let s := setIsDownloading "pdf" s in
    let result := createQRCanvas (qrData s) in
    let s := effect (CreateQRCanvas result) s in
    let s :=
      match result with
      | Resolved canvas =>
          let imgData := toDataURL canvas in
          let pdf := jsPDF "portrait" "mm" "a4" in
          let pdfWidth := pageWidth W in
          let pdfHeight := pageHeight W in
          let imgWidth := width canvas in
          let imgHeight := height canvas in
          let '(x, y, width, height) :=
            pdfPlacement pdfWidth pdfHeight imgWidth imgHeight in
          let pdf := addImage pdf (mkPdfImage imgData "PNG" x y width height) in
          effect (PdfSave ("رمز-QR-العقاري-" ++ string_of_Z (now W) ++ ".pdf")
                          pdf) s
      | Rejected error =>
          let s := effect (ConsoleError "Error downloading PDF:" error) s in
          effect (Alert "حدث خطأ أثناء حفظ PDF") s
      end in
    setIsDownloading "" s
  end.

(** *** Rendering *)

(** [CustomQRCode]: the on-screen symbol, drawn by [QRCodeSVG]. *)
Record QRCodeSVG := mkQRCodeSVG {
  svg_value : string;
  svg_size : Z;
  svg_level : ECLevel;
  svg_includeMargin : bool;
  svg_bgColor : string;
  svg_fgColor : string;
  svg_logoOverlay : bool
}.

Definition CustomQRCode (value : string) (size : Z) (showLogo : bool)
  : QRCodeSVG :=
  mkQRCodeSVG value size LevelH true "#FFFFFF" "#000000" showLogo.

(** What [QRContent] returns: the spinner, the "incomplete data" card, or
    the page with the previews and the two download buttons (each with its
    [disabled] attribute). *)
Inductive View :=
| LoadingView
| IncompleteDataView (title : string)
| MainView (data : QRData) (imageButtonDisabled pdfButtonDisabled : bool).

(** The condition of the "incomplete data" return:
    [!qrData?.details || !qrData?.license]. *)
Definition incomplete (qrData : option QRData) : bool :=
  match qrData with
  | None => true
  | Some d => negb (truthy (details d)) || negb (truthy (license d))
  end.

Definition render (s : State) : View :=
  if isLoading s then LoadingView
  else if incomplete (qrData s) then IncompleteDataView "بيانات غير مكتملة"
  else
    match qrData s with
    | Some d => MainView d (truthy (isDownloading s)) (truthy (isDownloading s))
    | None => IncompleteDataView "بيانات غير مكتملة"
    end.

(** What can happen to the component: the effect hook runs, or the user
    clicks a download button.  A click needs the button on screen and not
    disabled. *)
Inductive Event := RunLoadEffect (dataKey : string) | ClickImage | ClickPDF.

Definition step (s : State) (ev : Event) : option State :=
  match ev with
  | RunLoadEffect dataKey => Some (loadQRData dataKey s)
  | ClickImage =>
      match render s with
      | MainView _ false _ => Some (downloadAsImage s)
      | _ => None
      end
  | ClickPDF =>
      match render s with
      | MainView _ _ false => Some (downloadAsPDF s)
      | _ => None
      end
  end.

(** A run: the events that can be taken one after the other from a state. *)
Inductive run : State -> list Event -> State -> Prop :=
| run_nil s : run s [] s
| run_cons s ev s' evs s'' :
    step s ev = Some s' -> run s' evs s'' -> run s (ev :: evs) s''.

(** The calls of [createQRCanvas] among the effects. *)
Definition compositions (s : State) : list (Promise (Canvas N)) :=
  flat_map (fun e => match e with CreateQRCanvas r => [r] | _ => [] end)
           (effects s).

End QRContent.

Arguments PdfImage : clear implicits.
Arguments PdfDoc : clear implicits.
Arguments Effect : clear implicits.
Arguments State : clear implicits.

(** The side of the details symbol, [Math.floor(width * 0.75)]. *)
Definition mainQRSize {N : Type} {JSN : JSNumber N} : N :=
  math_floor (nmul (num 1200) (dec 75 2)).

(** The error of the encoder on a payload at a size, if it fails there. *)
Definition encodeError {N : Type} {JSN : JSNumber N} (W : World N)
    (value : string) (size : N) : option Error :=
  match qrEncode W value (toDataURLOptions size) with
  | EncThrow e | EncError e => Some e
  | EncUrl _ => None
  end.

(** ** Observations on a finished canvas *)

Section Observations.

Context {N : Type}.

(** The QR symbols drawn: images that come from a scratch canvas, each
    with its destination rectangle. *)
Definition symbols (c : Canvas N) : list (Image N * (N * N * N * N)) :=
  flat_map (fun call =>
    match call with
    | DrawImage (ImageOfCanvas w h t as i) x y dw dh => [(i, (x, y, dw, dh))]
    | _ => []
    end) (trace c).

(** The pictures drawn from a URL, each with its destination rectangle. *)
Definition pictures (c : Canvas N) : list (string * (N * N * N * N)) :=
  flat_map (fun call =>
    match call with
    | DrawImage (ImageOfUrl src) x y dw dh => [(src, (x, y, dw, dh))]
    | _ => []
    end) (trace c).

(** The texts drawn, each with its anchor point. *)
Definition texts (c : Canvas N) : list (string * (N * N)) :=
  flat_map (fun call =>
    match call with
    | FillText t x y => [(t, (x, y))]
    | _ => []
    end) (trace c).

(** The rectangles filled. *)
Definition rects (c : Canvas N) : list (N * N * N * N) :=
  flat_map (fun call =>
    match call with
    | FillRect x y w h => [(x, y, w, h)]
    | _ => []
    end) (trace c).

(** A call without what it draws: images and texts are forgotten, every
    coordinate, size, style and font is kept. *)
Inductive Shape :=
| ShStyle (color : string)
| ShAlign (align : string)
| ShBaseline (baseline : string)
| ShFont (fontWeight : string) (fontSize : N) (fontStack : string)
| ShRect (x y w h : N)
| ShText (x y : N)
| ShBeginPath
| ShRoundRect (x y w h radii : N)
| ShFill
| ShImage (dx dy dw dh : N).

Definition shape (call : CtxCall N) : Shape :=
  match call with
  | SetFillStyle c => ShStyle c
  | SetTextAlign a => ShAlign a
  | SetTextBaseline b => ShBaseline b
  | SetFont w s f => ShFont w s f
  | FillRect x y w h => ShRect x y w h
  | FillText _ x y => ShText x y
  | BeginPath => ShBeginPath
  | RoundRect x y w h r => ShRoundRect x y w h r
  | Fill => ShFill
  | DrawImage _ x y w h => ShImage x y w h
  end.

(** The layout of a canvas: its size and the shapes of its calls. *)
Definition layout (c : Canvas N) : N * N * list Shape :=
  (width c, height c, map shape (trace c)).

(** Where the details symbol, the first one drawn, starts vertically. *)
Definition detailsOffset (c : Canvas N) : option N :=
  match symbols c with
  | (_, (_, y, _, _)) :: _ => Some y
  | [] => None
  end.

(** Whether a trace draws a logo badge: a rounded rectangle. *)
Definition hasBadge (t : list (CtxCall N)) : bool :=
  existsb (fun call =>
    match call with RoundRect _ _ _ _ _ => true | _ => false end) t.

End Observations.

(** The events that are clicks on a download button. *)
Definition isClick (ev : Event) : Prop := ev = ClickImage \/ ev = ClickPDF.

(** How many of the two branding elements a record has. *)
Definition brandingElements (d : QRData) : nat :=
  Nat.b2n (truthy (officeLogo d)) + Nat.b2n (truthy (officeName d)).

(** ** Sample records and browsers *)

Module Sample.

Local Open Scope string_scope.

Definition plain : QRData :=
  mkQRData "https://example.com/a" "https://example.com/b" "" "".

Definition branded : QRData :=
  mkQRData "https://example.com/a" "https://example.com/b"
           "Office" "data:image/png;base64,iVBORw0KGgo=".

Definition logoOnly : QRData :=
  mkQRData "https://example.com/a" "https://example.com/b"
           "" "data:image/png;base64,iVBORw0KGgo=".

Definition nameOnly : QRData :=
  mkQRData "https://example.com/a" "https://example.com/b" "Office" "".

Definition badLogo : QRData :=
  mkQRData "https://example.com/a" "https://example.com/b"
           "" "data:image/png;base64,not-an-image".

Definition noDetails : QRData :=
  mkQRData "" "https://example.com/b" "" "".

(** A browser in which the sources in [broken] do not decode and the
    payloads in [unencodable] are refused by the encoder; everything else
    works.  The record [plain] is stored under the key [qrData_1]; the
    page is A4 in millimetres. *)
Definition world {N : Type} {JSN : JSNumber N}
    (broken unencodable : list string) : World N :=
  {| qrEncode := fun value _ =>
       if existsb (String.eqb value) unencodable
       then EncError (mkError "The amount of data is too big to be stored in a QR Code")
       else EncUrl ("data:image/png;qr," ++ value);
     imageLoads := fun i =>
       match i with
       | ImageOfUrl src => negb (existsb (String.eqb src) broken)
       | ImageOfCanvas _ _ _ => true
       end;
     context2d := true;
     storedData := fun key =>
       if String.eqb key "qrData_1" then Parsed plain else NoItem;
     now := 1700000000000;
     pageWidth := num 210;
     pageHeight := num 297 |}.

Definition ready (N : Type) (d : QRData) : State N :=
  mkState "" (Some d) false [].

(** The canvas composed for [d] in [W], an empty one if composition
    rejects. *)
Definition composed {N : Type} {JSN : JSNumber N} (W : World N)
    (d : QRData) : Canvas N :=
  match createQRCanvas W (Some d) with
  | Resolved canvas => canvas
  | Rejected _ => mkCanvas (num 0) (num 0) []
  end.

(** The symbol made for [value] in [W], an empty image if it rejects. *)
Definition symbol {N : Type} {JSN : JSNumber N} (W : World N)
    (value : string) (size : N) (showLogo : bool) : Image N :=
  match createQRCodeImage W value size showLogo with
  | Resolved img => img
  | Rejected _ => ImageOfUrl ""
  end.

End Sample.

(** ** Further observations *)

Section MoreObservations.

Context {N : Type}.

(** The state of a context that decides how a text or a rectangle is
    painted; a new context starts with the defaults of the canvas API. *)
Record Style := mkStyle {
  st_fillStyle : string;
  st_textAlign : string;
  st_textBaseline : string;
  st_font : option (string * N * string)
}.

Definition defaultStyle : Style :=
  mkStyle "#000000" "start" "alphabetic" None.

Definition restyle (st : Style) (call : CtxCall N) : Style :=
  match call with
  | SetFillStyle c =>
      mkStyle c (st_textAlign st) (st_textBaseline st) (st_font st)
  | SetTextAlign a =>
      mkStyle (st_fillStyle st) a (st_textBaseline st) (st_font st)
  | SetTextBaseline b =>
      mkStyle (st_fillStyle st) (st_textAlign st) b (st_font st)
  | SetFont w sz f =>
      mkStyle (st_fillStyle st) (st_textAlign st) (st_textBaseline st)
              (Some (w, sz, f))
  | _ => st
  end.

(** The texts of a trace, each with the style in force when it is drawn. *)
Fixpoint styledTexts (st : Style) (t : list (CtxCall N))
  : list (string * Style) :=
  match t with
  | [] => []
  | FillText text _ _ :: t' => (text, st) :: styledTexts st t'
  | call :: t' => styledTexts (restyle st call) t'
  end.

(** The colours the rectangles of a trace are filled with, in order. *)
Fixpoint rectFills (st : Style) (t : list (CtxCall N)) : list string :=
  match t with
  | [] => []
  | FillRect _ _ _ _ :: t' => st_fillStyle st :: rectFills st t'
  | call :: t' => rectFills (restyle st call) t'
  end.

(** Whether a symbol image draws the application logo. *)
Definition drawsAppLogo (t : list (CtxCall N)) : bool :=
  existsb (fun call =>
    match call with
    | DrawImage (ImageOfUrl src) _ _ _ _ => String.eqb src "/logo/logo.png"
    | _ => false
    end) t.

(** The names of the files a state has saved, and its alerts. *)
Definition files (s : State N) : list string :=
  flat_map (fun e =>
    match e with
    | LinkClick name _ => [name]
    | PdfSave name _ => [name]
    | _ => []
    end) (effects s).

Definition alerts (s : State N) : list string :=
  flat_map (fun e => match e with Alert msg => [msg] | _ => [] end)
           (effects s).

End MoreObservations.

(** The number of clicks among events. *)
Definition clicks (evs : list Event) : nat :=
  List.length (filter (fun ev =>
    match ev with ClickImage | ClickPDF => true | _ => false end) evs).

(** Whether every rectangle filled and every image drawn lies on the
    canvas, in binary64.  Texts are not looked at: their width is not part
    of the trace. *)
Definition boxesOnCanvas (c : Canvas float) : bool :=
  forallb (fun call =>
    match call with
    | FillRect x y w h | DrawImage _ x y w h =>
        (PrimFloat.leb 0 x && PrimFloat.leb 0 y &&
         PrimFloat.leb (PrimFloat.add x w) (width c) &&
         PrimFloat.leb (PrimFloat.add y h) (height c))%bool
    | _ => true
    end) (trace c).

(** [searchParams.get("dataKey") || ""] on a query given by its
    parameters. *)
Definition dataKeyOfQuery (query : list (string * string)) : string :=
  match find (fun p => String.eqb (fst p) "dataKey") query with
  | Some (_, v) => v
  | None => EmptyString
  end.

(** ** The input page [Home] of [src/app/page.tsx] *)

Module Home.

Local Open Scope string_scope.

(** An uploaded [File]: what the page reads of it is its size. *)
Record File := mkFile {
  fileName : string;
  size : Z
}.

(** What the browser decides for the input page. *)
Record Browser := mkBrowser {
  (** whether [new URL(url)] returns ([true]) or throws *)
  urlParses : string -> bool;
  (** [URL.createObjectURL(file)] *)
  createObjectURL : File -> string;
  (** the result of [reader.readAsDataURL(file)] handed to [onload], or
      [None] when [onload] never fires *)
  readAsDataURL : File -> option string;
  (** the exception of [localStorage.setItem(key, JSON.stringify(data))],
      if it throws *)
  setItemThrows : string -> QRData -> option Error;
  (** [Date.now()] *)
  dateNow : Z
}.

Record Errors := mkErrors {
  details : string;
  license : string
}.

Inductive Effect :=
| Alert (msg : string)
| ConsoleError (label : string) (error : Error)
| SetItem (key : string) (data : QRData)
| RouterPush (path : string) (query : list (string * string)).

Record State := mkState {
  propertyDetails : string;
  propertyLicense : string;
  officeName : string;
  officeLogo : option File;
  logoPreview : string;
  errors : Errors;
  isGenerating : bool;
  effects : list Effect
}.

Definition initialState : State :=
  mkState "" "" "" None "" (mkErrors "" "") false [].

Definition effect (e : Effect) (s : State) : State :=
  mkState (propertyDetails s) (propertyLicense s) (officeName s)
          (officeLogo s) (logoPreview s) (errors s) (isGenerating s)
          (effects s ++ [e])%list.

Definition setErrors (v : Errors) (s : State) : State :=
  mkState (propertyDetails s) (propertyLicense s) (officeName s)
          (officeLogo s) (logoPreview s) v (isGenerating s) (effects s).

Definition setIsGenerating (v : bool) (s : State) : State :=
  mkState (propertyDetails s) (propertyLicense s) (officeName s)
          (officeLogo s) (logoPreview s) (errors s) v (effects s).

Section Handlers.

Variable B : Browser.

(** [validateUrl]. *)
Definition validateUrl (url : string) : bool := urlParses B url.

(** [handleLogoUpload], on [e.target.files?.[0]]. *)
Definition handleLogoUpload (file : option File) (s : State) : State :=
  match file with
  | Some file =>
    if (size file >? 2 * 1024 * 1024)%Z then
      effect (Alert "حجم الصورة يجب أن يكون أقل من 2MB") s
    else
      mkState (propertyDetails s) (propertyLicense s) (officeName s)
              (Some file) (createObjectURL B file) (errors s)
              (isGenerating s) (effects s)
  | None => s
  end.

(** The two validations at the head of [handleGenerate]. *)
Definition newErrors (s : State) : Errors :=
  mkErrors
    (if negb (truthy (propertyDetails s)) then
       "يرجى إدخال رابط تفاصيل العقار"
     else if negb (validateUrl (propertyDetails s)) then
       "يرجى إدخال رابط صحيح"
     else "")
    (if negb (truthy (propertyLicense s)) then
       "يرجى إدخال رابط الرخصة العقارية"
     else if negb (validateUrl (propertyLicense s)) then
       "يرجى إدخال رابط صحيح"
     else "").

(** The [catch] block of [handleGenerate]. *)
Definition generateFailed (error : Error) (s : State) : State :=
  let s := effect (ConsoleError "Error generating QR codes:" error) s in
  let s := effect (Alert "حدث خطأ أثناء إنشاء الرموز") s in
  setIsGenerating false s.

(** [handleGenerate].  When the file reader never calls [onload] the
    handler stays suspended at its [await]: the state is the one reached
    there. *)
Definition handleGenerate (s : State) : State :=
  let newErrors := newErrors s in
  let s := setErrors newErrors s in
  if negb (truthy (details newErrors)) && negb (truthy (license newErrors))
  then
    let s := setIsGenerating true s in
    let qrData :=
      mkQRData (propertyDetails s) (propertyLicense s)
               (if truthy (officeName s) then officeName s else "") "" in
    let read :=
      match officeLogo s with
      | Some file =>
          match readAsDataURL B file with
          | Some logoBase64 =>
              Some (mkQRData (propertyDetails s) (propertyLicense s)
                             (if truthy (officeName s) then officeName s
                              else "")
                             logoBase64)
          | None => None
          end
      | None => Some qrData
      end in
    match read with
    | None => s
    | Some qrData =>
      let storageKey := "qrData_" ++ string_of_Z (dateNow B) in
      match setItemThrows B storageKey qrData with
      | Some error => generateFailed error s
      | None =>
        let s := effect (SetItem storageKey qrData) s in
        effect (RouterPush "/qr" [("dataKey", storageKey)]) s
      end
    end
  else s.

(** The [onChange] handlers of the three text inputs. *)
Definition changeOfficeName (v : string) (s : State) : State :=
  mkState (propertyDetails s) (propertyLicense s) v (officeLogo s)
          (logoPreview s) (errors s) (isGenerating s) (effects s).

Definition changeDetails (v : string) (s : State) : State :=
  let s := mkState v (propertyLicense s) (officeName s) (officeLogo s)
                   (logoPreview s) (errors s) (isGenerating s) (effects s) in
  if truthy (details (errors s))
  then setErrors (mkErrors "" (license (errors s))) s
  else s.

Definition changeLicense (v : string) (s : State) : State :=
  let s := mkState (propertyDetails s) v (officeName s) (officeLogo s)
                   (logoPreview s) (errors s) (isGenerating s) (effects s) in
  if truthy (license (errors s))
  then setErrors (mkErrors (details (errors s)) "") s
  else s.

(** The [disabled] attribute of the button. *)
Definition generateDisabled (s : State) : bool :=
  negb (truthy (propertyDetails s)) || negb (truthy (propertyLicense s))
  || isGenerating s.

Inductive Event :=
| TypeOfficeName (v : string)
| ChooseLogo (file : option File)
| TypeDetails (v : string)
| TypeLicense (v : string)
| ClickGenerate.

Definition step (s : State) (ev : Event) : option State :=
  match ev with
  | TypeOfficeName v => Some (changeOfficeName v s)
  | ChooseLogo file => Some (handleLogoUpload file s)
  | TypeDetails v => Some (changeDetails v s)
  | TypeLicense v => Some (changeLicense v s)
  | ClickGenerate =>
      if generateDisabled s then None else Some (handleGenerate s)
  end.

Inductive run : State -> list Event -> State -> Prop :=
| run_nil s : run s [] s
| run_cons s ev s' evs s'' :
    step s ev = Some s' -> run s' evs s'' -> run s (ev :: evs) s''.

End Handlers.

(** The records written to storage and the routes pushed. *)
Definition stored (s : State) : list (string * QRData) :=
  flat_map (fun e => match e with SetItem k d => [(k, d)] | _ => [] end)
           (effects s).

Definition routes (s : State) : list (string * list (string * string)) :=
  flat_map (fun e => match e with RouterPush p q => [(p, q)] | _ => [] end)
           (effects s).

(** A browser in which the URLs in [valid] parse, every file reads as the
    data URL [dataURL] and storage has room. *)
Definition sampleBrowser (valid : list string) (dataURL : string) : Browser :=
  {| urlParses := fun url => existsb (String.eqb url) valid;
     createObjectURL := fun file => "blob:" ++ fileName file;
     readAsDataURL := fun _ => Some dataURL;
     setItemThrows := fun _ _ => None;
     dateNow := 1700000000000 |}.

(** The form filled with the two sample URLs. *)
Definition filled : State :=
  mkState "https://example.com/a" "https://example.com/b" "Office" None ""
          (mkErrors "" "") false [].

End Home.

(** The two previews of the main return: [CustomQRCode] on the details
    with the logo and on the license without, at the size the width of the
    window selects ([None]: there is no [window]). *)
Definition previews (innerWidth : option Z) (d : QRData) : list QRCodeSVG :=
  let narrow :=
    match innerWidth with
    | Some w => (w <? 640)%Z
    | None => false
    end in
  [CustomQRCode (details d) (if narrow then 120 else 180)%Z true;
   CustomQRCode (license d) (if narrow then 50 else 70)%Z false].

(** What is on screen once the children of what [render] returns are
    rendered.  [svgFits] says whether [QRCodeSVG] of [qrcode.react] can
    make a symbol of these properties; when the value does not fit one of
    the level asked for it throws, and nothing of the page is shown. *)
Inductive Screen :=
| Shown (v : View)
| RenderThrows.

Definition screen {N : Type} (svgFits : QRCodeSVG -> bool)
    (innerWidth : option Z) (s : State N) : Screen :=
  match render s with
  | MainView d imageDisabled pdfDisabled =>
      if forallb svgFits (previews innerWidth d)
      then Shown (MainView d imageDisabled pdfDisabled)
      else RenderThrows
  | v => Shown v
  end.

(** Storage holds under a key that is not empty a record with both URLs. *)
Definition storedComplete {N : Type} (W : World N) (key : string)
    (d : QRData) : Prop :=
  truthy key = true /\ storedData W key = Parsed d /\
  details d <> EmptyString /\ license d <> EmptyString.

(** The form holds two URLs that are not empty and parse. *)
Definition validForm (B : Home.Browser) (s : Home.State) : Prop :=
  Home.propertyDetails s <> EmptyString /\
  Home.urlParses B (Home.propertyDetails s) = true /\
  Home.propertyLicense s <> EmptyString /\
  Home.urlParses B (Home.propertyLicense s) = true.

(** A stored record that the QR page can show: both URLs are there and
    parse. *)
Definition storable (B : Home.Browser) (kd : string * QRData) : Prop :=
  incomplete (Some (snd kd)) = false /\
  Home.urlParses B (details (snd kd)) = true /\
  Home.urlParses B (license (snd kd)) = true.

(** The route that hands a stored record to the QR page. *)
Definition routeOf (kd : string * QRData) : string * list (string * string) :=
  ("/qr"%string, [("dataKey"%string, fst kd)]).

(** What every reachable state of the form satisfies: nothing is stored
    before the form is busy, at most one record is stored, every stored
    record is storable and has its route. *)
Definition formInvariant (B : Home.Browser) (s : Home.State) : Prop :=
  (Home.isGenerating s = false -> Home.stored s = []) /\
  (List.length (Home.stored s) <= 1)%nat /\
  Forall (storable B) (Home.stored s) /\
  Home.routes s = map routeOf (Home.stored s).

(** ** Proof tools *)

(** Split a hypothesis on what the browser answered, innermost question
    first: the sources of the later images are made of the encoder's
    answers. *)
Ltac world_case_in H :=
  match type of H with
  | context [match ?x with _ => _ end] =>
      lazymatch x with
      | context [match _ with _ => _ end] => fail
      | _ => destruct x eqn:?
      end
  end.

(** Normalise a hypothesis about a run in the world [W]: the world is taken
    apart so that its answers are plain terms, everything the program
    itself computes is computed, and the answers are split on. *)
Ltac run_in W H :=
  destruct W as [?qrEncode ?imageLoads ?context2d ?storedData ?now ?pw ?ph];
  vm_compute in H;
  repeat (world_case_in H; try discriminate H).


(** The four shapes of the office block, by the two strings being empty or
    not. *)
Ltac office_cases d :=
  destruct d as [?details ?license [|? ?] [|? ?]].

Local Open Scope list_scope.

(** ** The binary64 numbers at work *)

Section Binary64Checks.

Local Open Scope float_scope.

Example decimal_literals :
  Binary64.decimal 75 2 = 0.75 /\ Binary64.decimal 5 1 = 0.5 /\
  Binary64.of_Z 1200 = 1200 /\ Binary64.of_Z (-3) = -3.
Proof. repeat split. Qed.

Example math_floor_values :
  Binary64.floor 2.5 = 2 /\ Binary64.floor (-2.5) = -3 /\
  Binary64.floor (-0.5) = -1 /\ Binary64.floor 0.5 = 0 /\
  Binary64.floor 7 = 7 /\ Binary64.floor 899.5 = 899 /\
  Binary64.floor 4503599627370497 = 4503599627370497 /\
  Binary64.floor infinity = infinity.
Proof. repeat split. Qed.

Example math_min_values :
  Binary64.min 210 297 = 210 /\ Binary64.min 3 (-2) = -2 /\
  Binary64.min 1 1 = 1.
Proof. repeat split. Qed.

Example mainQRSize_binary64 : mainQRSize = 900.
Proof. reflexivity. Qed.

(** The details symbol as the browser computes it: the badge is at
    [(360, 360)] with side 180 and radius 36; the logo area has side
    [151.2] and starts at [374.4], both rounded to the nearest double. *)
Example details_symbol_binary64 :
  Sample.symbol (Sample.world [] []) "https://example.com/a" 900 true =
  ImageOfCanvas 900 900
    [DrawImage (ImageOfUrl "data:image/png;qr,https://example.com/a")
               0 0 900 900;
     SetFillStyle "#FFFFFF"%string;
     BeginPath;
     RoundRect 360 360 180 180 36;
     Fill;
     DrawImage (ImageOfUrl "/logo/logo.png")
               (Binary64.decimal 3744 1) (Binary64.decimal 3744 1)
               (Binary64.decimal 1512 1) (Binary64.decimal 1512 1)].
Proof. vm_compute. reflexivity. Qed.

End Binary64Checks.

(** ** The encoder options of the export path (C2) *)

(** C2 (the code departs from it).  Whatever the payload and the size, the
    options the export path hands to the encoder carry the margin 1, the
    dark foreground [#000000] and the light background [#FFFFFF], but no
    error-correction level: the symbol is encoded at the package's default
    level, which is High only if the package's default is.  With the
    default of the [qrcode] package, Medium, it is not High.  The on-screen
    path asks for High itself. *)
Theorem export_options_leave_level_to_package :
  forall (N : Type) (JSN : JSNumber N) (size : N),
    opt_width (toDataURLOptions size) = Some size /\
    opt_margin (toDataURLOptions size) = Some (num 1) /\
    opt_color (toDataURLOptions size)
      = Some {| dark := Some "#000000"%string; light := Some "#FFFFFF"%string |} /\
    opt_errorCorrectionLevel (toDataURLOptions size) = None /\
    (forall packageDefault,
        effectiveLevel packageDefault (toDataURLOptions size) = packageDefault) /\
    effectiveLevel LevelM (toDataURLOptions size) <> LevelH /\
    (forall value n showLogo,
        svg_level (CustomQRCode value n showLogo) = LevelH).
Proof.
  intros N JSN size. repeat split.
  discriminate.
Qed.

(** ** What the exporters do with a rejected composition *)

Section Rejections.

Context {N : Type} {JSN : JSNumber N}.
Variable W : World N.

Lemma downloadAsImage_rejected (s : State N) (d : QRData) (e : Error) :
  qrData s = Some d ->
  createQRCanvas W (Some d) = Rejected e ->
  downloadAsImage W s =
    mkState ""%string (Some d) (isLoading s)
      (effects s ++
         [CreateQRCanvas (Rejected e);
          ConsoleError "Error downloading image:"%string e;
          Alert "حدث خطأ أثناء حفظ الصورة"%string]).
Proof.
  intros Hd He. unfold downloadAsImage. rewrite Hd. cbn.
  rewrite Hd, He. unfold setIsDownloading, effect. cbn.
  rewrite Hd, <- !app_assoc. reflexivity.
Qed.

Lemma downloadAsPDF_rejected (s : State N) (d : QRData) (e : Error) :
  qrData s = Some d ->
  createQRCanvas W (Some d) = Rejected e ->
  downloadAsPDF W s =
    mkState ""%string (Some d) (isLoading s)
      (effects s ++
         [CreateQRCanvas (Rejected e);
          ConsoleError "Error downloading PDF:"%string e;
          Alert "حدث خطأ أثناء حفظ PDF"%string]).
Proof.
  intros Hd He. unfold downloadAsPDF. rewrite Hd. cbn.
  rewrite Hd, He. unfold setIsDownloading, effect. cbn.
  rewrite Hd, <- !app_assoc. reflexivity.
Qed.

(** After a handler has run to its end the busy flag is empty again, so
    the view is the one before it whenever no export was running. *)
Lemma render_after_reset (s : State N) (d : QRData) (fx : list (Effect N)) :
  qrData s = Some d ->
  isDownloading s = ""%string ->
  render (mkState ""%string (Some d) (isLoading s) fx) = render s.
Proof.
  intros Hd Hb. unfold render. cbn. rewrite Hd, Hb. reflexivity.
Qed.

(** A failing office logo ends [createQRCanvas] before anything else of
    the record is looked at. *)
Lemma createQRCanvas_office_logo_fails (d : QRData) :
  truthy (officeLogo d) = true ->
  imageLoads W (ImageOfUrl (officeLogo d)) = false ->
  context2d W = true ->
  createQRCanvas W (Some d)
    = Rejected (mkError "Failed to load office logo").
Proof.
  intros Ht Hl Hc. unfold createQRCanvas.
  rewrite Hc, Ht, Hl, orb_true_r. reflexivity.
Qed.

(** [createQRCanvas] resolves only in a browser that gave a context and
    loaded the office logo, if there is one. *)
Lemma createQRCanvas_resolved_inv (d : QRData) (canvas : Canvas N) :
  createQRCanvas W (Some d) = Resolved canvas ->
  context2d W = true /\
  (truthy (officeLogo d) = true ->
     imageLoads W (ImageOfUrl (officeLogo d)) = true) /\
  (exists img, createQRCodeImage W (details d) mainQRSize true = Resolved img) /\
  (exists img, createQRCodeImage W (license d) (num 150) false = Resolved img).
Proof.
  unfold createQRCanvas, mainQRSize.
  destruct (context2d W); [|discriminate].
  destruct (truthy (officeLogo d)) eqn:Hlogo;
    destruct (truthy (officeName d)) eqn:Hname; cbn;
    try (destruct (imageLoads W (ImageOfUrl (officeLogo d))) eqn:Hl;
         [|discriminate]); cbn;
    (destruct (createQRCodeImage W (details d) _ true) eqn:Hm;
       [|discriminate]); cbn;
    (destruct (createQRCodeImage W (license d) _ false) eqn:Hq;
       [|discriminate]); cbn; intros _;
    repeat split; eauto; discriminate.
Qed.

(** [createQRCodeImage] hands on the error of the encoder. *)
Lemma createQRCodeImage_encode_error (value : string) (size : N)
    (showLogo : bool) (e : Error) :
  encodeError W value size = Some e ->
  createQRCodeImage W value size showLogo = Rejected e.
Proof.
  unfold encodeError, createQRCodeImage.
  destruct (qrEncode W value (toDataURLOptions size));
    intros H; inversion H; reflexivity.
Qed.

End Rejections.

(** ** An office logo that does not decode (C1) *)

(** C1, as stated, fails: the record [Sample.badLogo] carries an office logo
    that the browser cannot decode, and its composition does not resolve
    with a canvas: it rejects with "Failed to load office logo". *)
Lemma undecodable_office_logo_counterexample :
  let W := Sample.world (N := float)
             ["data:image/png;base64,not-an-image"%string] [] in
  imageLoads W (ImageOfUrl (officeLogo Sample.badLogo)) = false /\
  createQRCanvas W (Some Sample.badLogo)
    = Rejected (mkError "Failed to load office logo") /\
  ~ (exists canvas, createQRCanvas W (Some Sample.badLogo) = Resolved canvas).
Proof.
  cbv zeta. split; [reflexivity|]. split; [reflexivity|].
  intros [canvas H]. vm_compute in H. discriminate H.
Qed.

(** C1, amended.  For every record whose office logo is non-empty and does
    not decode, composition never resolves with a canvas; once the context
    is there it rejects with "Failed to load office logo", and each exporter
    catches that: it logs the error, alerts the user, saves nothing and
    resets its busy flag. *)
Theorem undecodable_office_logo_rejects :
  forall (N : Type) (JSN : JSNumber N) (W : World N) (s : State N) (d : QRData),
    qrData s = Some d ->
    truthy (officeLogo d) = true ->
    imageLoads W (ImageOfUrl (officeLogo d)) = false ->
    (forall canvas, createQRCanvas W (Some d) <> Resolved canvas) /\
    (context2d W = true ->
     let failure := mkError "Failed to load office logo" in
     createQRCanvas W (Some d) = Rejected failure /\
     downloadAsImage W s =
       mkState ""%string (Some d) (isLoading s)
         (effects s ++
            [CreateQRCanvas (Rejected failure);
             ConsoleError "Error downloading image:"%string failure;
             Alert "حدث خطأ أثناء حفظ الصورة"%string]) /\
     downloadAsPDF W s =
       mkState ""%string (Some d) (isLoading s)
         (effects s ++
            [CreateQRCanvas (Rejected failure);
             ConsoleError "Error downloading PDF:"%string failure;
             Alert "حدث خطأ أثناء حفظ PDF"%string])).
Proof.
  intros N JSN W s d Hd Ht Hl. split.
  - intros canvas Hc.
    destruct (createQRCanvas_resolved_inv W d Hc) as (_ & Hlogo & _).
    rewrite (Hlogo Ht) in Hl. discriminate Hl.
  - intros Hctx failure.
    pose proof (createQRCanvas_office_logo_fails W d Ht Hl Hctx) as Hr.
    split; [exact Hr|]. split.
    + apply downloadAsImage_rejected; assumption.
    + apply downloadAsPDF_rejected; assumption.
Qed.

Lemma undecodable_office_logo_rejects_witness :
  let W := Sample.world (N := float)
             ["data:image/png;base64,not-an-image"%string] [] in
  let s := Sample.ready float Sample.badLogo in
  (forall canvas, createQRCanvas W (Some Sample.badLogo) <> Resolved canvas) /\
  (context2d W = true ->
   let failure := mkError "Failed to load office logo" in
   createQRCanvas W (Some Sample.badLogo) = Rejected failure /\
   downloadAsImage W s =
     mkState ""%string (Some Sample.badLogo) (isLoading s)
       (effects s ++
          [CreateQRCanvas (Rejected failure);
           ConsoleError "Error downloading image:"%string failure;
           Alert "حدث خطأ أثناء حفظ الصورة"%string]) /\
   downloadAsPDF W s =
     mkState ""%string (Some Sample.badLogo) (isLoading s)
       (effects s ++
          [CreateQRCanvas (Rejected failure);
           ConsoleError "Error downloading PDF:"%string failure;
           Alert "حدث خطأ أثناء حفظ PDF"%string])).
Proof.
  intros W s.
  apply (@undecodable_office_logo_rejects float _ W s Sample.badLogo);
    reflexivity.
Defined.

(** ** Encoding failures (C6) *)

(** C6.  If the encoder fails on the details payload or on the license
    payload, composition never resolves with a canvas: it rejects.  When
    composition gets as far as the failing encoder call, the error it
    rejects with is the encoder's own.  Each exporter catches the
    rejection, logs it, alerts the user, saves nothing and resets its busy
    flag, which leaves the view as it was before the click. *)
Theorem encoding_failure_propagates :
  forall (N : Type) (JSN : JSNumber N) (W : World N) (s : State N) (d : QRData),
    qrData s = Some d ->
    encodeError W (details d) mainQRSize <> None \/
    encodeError W (license d) (num 150) <> None ->
    (forall canvas, createQRCanvas W (Some d) <> Resolved canvas) /\
    exists e,
      createQRCanvas W (Some d) = Rejected e /\
      (context2d W = true ->
       (truthy (officeLogo d) = true ->
          imageLoads W (ImageOfUrl (officeLogo d)) = true) ->
       (forall e0, encodeError W (details d) mainQRSize = Some e0 -> e = e0) /\
       (forall e0 img,
           createQRCodeImage W (details d) mainQRSize true = Resolved img ->
           encodeError W (license d) (num 150) = Some e0 -> e = e0)) /\
      downloadAsImage W s =
        mkState ""%string (Some d) (isLoading s)
          (effects s ++
             [CreateQRCanvas (Rejected e);
              ConsoleError "Error downloading image:"%string e;
              Alert "حدث خطأ أثناء حفظ الصورة"%string]) /\
      downloadAsPDF W s =
        mkState ""%string (Some d) (isLoading s)
          (effects s ++
             [CreateQRCanvas (Rejected e);
              ConsoleError "Error downloading PDF:"%string e;
              Alert "حدث خطأ أثناء حفظ PDF"%string]) /\
      (isDownloading s = ""%string ->
       render (downloadAsImage W s) = render s /\
       render (downloadAsPDF W s) = render s).
Proof.
  intros N JSN W s d Hd Hfail.
  assert (Hnever : forall canvas, createQRCanvas W (Some d) <> Resolved canvas).
  { intros canvas Hc.
    destruct (createQRCanvas_resolved_inv W d Hc)
      as (_ & _ & [im Hm] & [il Hq]).
    destruct Hfail as [Hf | Hf].
    - destruct (encodeError W (details d) mainQRSize) as [e0|] eqn:He;
        [|congruence].
      rewrite (createQRCodeImage_encode_error W _ _ true He) in Hm.
      discriminate Hm.
    - destruct (encodeError W (license d) (num 150)) as [e0|] eqn:He;
        [|congruence].
      rewrite (createQRCodeImage_encode_error W _ _ false He) in Hq.
      discriminate Hq. }
  split; [exact Hnever|].
  destruct (createQRCanvas W (Some d)) as [canvas|e] eqn:Hr.
  { exfalso. exact (Hnever canvas eq_refl). }
  exists e. split; [reflexivity|].
  split; [|split; [|split]].
  - intros Hctx Hlogo. unfold createQRCanvas in Hr.
    fold (@mainQRSize N JSN) in Hr. rewrite Hctx in Hr.
    split.
    + intros e0 He0.
      pose proof (createQRCodeImage_encode_error W _ _ true He0) as Hm.
      destruct (truthy (officeName d)), (truthy (officeLogo d));
        cbn [await orb negb] in Hr;
        try rewrite (Hlogo eq_refl) in Hr; cbn [await] in Hr;
        rewrite Hm in Hr; cbn [await] in Hr; congruence.
    + intros e0 img Hm He0.
      pose proof (createQRCodeImage_encode_error W _ _ false He0) as Hq.
      destruct (truthy (officeName d)), (truthy (officeLogo d));
        cbn [await orb negb] in Hr;
        try rewrite (Hlogo eq_refl) in Hr; cbn [await] in Hr;
        rewrite Hm in Hr; cbn [await] in Hr;
        rewrite Hq in Hr; cbn [await] in Hr; congruence.
  - apply downloadAsImage_rejected; assumption.
  - apply downloadAsPDF_rejected; assumption.
  - intros Hb.
    rewrite (downloadAsImage_rejected W s Hd Hr),
            (downloadAsPDF_rejected W s Hd Hr).
    split; apply render_after_reset; assumption.
Qed.

Lemma encoding_failure_propagates_witness :
  let W := Sample.world (N := float) [] ["https://example.com/a"%string] in
  let s := Sample.ready float Sample.plain in
  encodeError W (details Sample.plain) mainQRSize <> None /\
  (forall canvas, createQRCanvas W (Some Sample.plain) <> Resolved canvas) /\
  exists e,
    createQRCanvas W (Some Sample.plain) = Rejected e /\
    isDownloading (downloadAsImage W s) = ""%string /\
    isDownloading (downloadAsPDF W s) = ""%string.
Proof.
  intros W s.
  assert (Hfail : encodeError W (details Sample.plain) mainQRSize <> None)
    by (vm_compute; discriminate).
  split; [exact Hfail|].
  destruct (@encoding_failure_propagates float _ W s Sample.plain
              eq_refl (or_introl Hfail))
    as (Hnever & e & Hr & _ & Himg & Hpdf & _).
  split; [exact Hnever|].
  exists e. split; [exact Hr|].
  rewrite Himg, Hpdf. split; reflexivity.
Defined.

(** ** The application logo does not load (C7) *)

(** C7.  When the encoder has answered, the symbol has loaded and the
    application logo does not load, [createQRCodeImage] with the logo asked
    for resolves (the browser decoding the picture of the scratch canvas):
    the image is the symbol with the white rounded badge on it and no logo
    drawn. *)
Theorem app_logo_failure_keeps_badge :
  forall (N : Type) (JSN : JSNumber N) (W : World N)
         (value url : string) (size : N),
    let badgeSide := (size / num 5)%js in
    let withBadge :=
      [DrawImage (ImageOfUrl url) (num 0) (num 0) size size;
       SetFillStyle "#FFFFFF"%string;
       BeginPath;
       RoundRect (size / num 2 - badgeSide / num 2)%js
                 (size / num 2 - badgeSide / num 2)%js
                 badgeSide badgeSide (badgeSide * dec 2 1)%js;
       Fill] in
    qrEncode W value (toDataURLOptions size) = EncUrl url ->
    imageLoads W (ImageOfUrl url) = true ->
    imageLoads W (ImageOfUrl "/logo/logo.png"%string) = false ->
    imageLoads W (ImageOfCanvas size size withBadge) = true ->
    createQRCodeImage W value size true
      = Resolved (ImageOfCanvas size size withBadge) /\
    hasBadge withBadge = true /\
    (forall x y w h,
        ~ In (DrawImage (ImageOfUrl "/logo/logo.png"%string) x y w h) withBadge).
Proof.
  intros N JSN W value url size badgeSide withBadge Henc Hqr Hlogo Hfinal.
  split; [|split].
  - unfold createQRCodeImage, resolveFinalImg, toDataURL.
    rewrite Henc, Hqr, Hlogo. cbn.
    fold badgeSide. fold withBadge. rewrite Hfinal. reflexivity.
  - reflexivity.
  - intros x y w h Hin. cbn in Hin.
    destruct Hin as [H|[H|[H|[H|[H|[]]]]]]; try discriminate H.
    inversion H; subst. rewrite Hqr in Hlogo. discriminate Hlogo.
Qed.

Lemma app_logo_failure_keeps_badge_witness :
  let W := Sample.world (N := float) ["/logo/logo.png"%string] [] in
  exists badge,
    createQRCodeImage W "https://example.com/a"%string mainQRSize true
      = Resolved (ImageOfCanvas mainQRSize mainQRSize badge) /\
    hasBadge badge = true /\
    (forall x y w h,
        ~ In (DrawImage (ImageOfUrl "/logo/logo.png"%string) x y w h) badge).
Proof.
  intros W. eexists.
  apply (@app_logo_failure_keeps_badge float _ W
           "https://example.com/a"%string
           "data:image/png;qr,https://example.com/a"%string mainQRSize);
    reflexivity.
Defined.

(** ** The guard in front of composition (C8) *)

(** C8.  The record is incomplete exactly when it is absent or one of its
    two URLs is empty.  With an incomplete record the component shows the
    "incomplete data" card once loading is over, no download button can be
    clicked, and so no run of clicks changes the state: [createQRCanvas] is
    not called and nothing is thrown.  Conversely, a step that calls
    [createQRCanvas] starts from a loaded, complete record. *)
Theorem incomplete_record_is_never_composed :
  forall (N : Type) (JSN : JSNumber N) (W : World N) (s : State N),
    (incomplete (qrData s) = true <->
       qrData s = None \/
       exists d, qrData s = Some d /\
                 (details d = ""%string \/ license d = ""%string)) /\
    (incomplete (qrData s) = true ->
       (isLoading s = false ->
          render s = IncompleteDataView "بيانات غير مكتملة"%string) /\
       step W s ClickImage = None /\
       step W s ClickPDF = None /\
       (forall evs s', run W s evs s' -> Forall isClick evs ->
                       evs = [] /\ s' = s)) /\
    (forall ev s', step W s ev = Some s' ->
                   compositions s' <> compositions s ->
                   isLoading s = false /\ incomplete (qrData s) = false).
Proof.
  intros N JSN W s.
  assert (Hclicks : incomplete (qrData s) = true ->
                    step W s ClickImage = None /\ step W s ClickPDF = None).
  { intros Hinc. unfold step, render. rewrite Hinc.
    destruct (isLoading s); split; reflexivity. }
  split; [|split].
  - unfold incomplete. destruct (qrData s) as [d|].
    + split.
      * intros H. right. exists d. split; [reflexivity|].
        destruct (details d); [left; reflexivity|].
        destruct (license d); [right; reflexivity|]. discriminate H.
      * intros [H|[d' [Hd [H|H]]]]; [discriminate H| |];
          inversion Hd; subst d'; rewrite H; cbn; [reflexivity|].
        apply orb_true_r.
    + split; [left; reflexivity|reflexivity].
  - intros Hinc. destruct (Hclicks Hinc) as [Hi Hp].
    split; [|split; [exact Hi|split; [exact Hp|]]].
    + intros Hl. unfold render. rewrite Hl, Hinc. reflexivity.
    + intros evs s' Hrun Hall. destruct Hrun as [s0|s0 ev s1 evs s2 Hstep Hrun].
      * split; reflexivity.
      * exfalso. inversion Hall as [|? ? Hev _]; subst.
        destruct (Hclicks Hinc) as [Hi' Hp'].
        destruct Hev as [-> | ->]; congruence.
  - intros ev s' Hstep Hcomp.
    destruct (isLoading s) eqn:Hl.
    + exfalso. destruct ev as [key| |]; cbn in Hstep.
      * inversion Hstep; subst s'. apply Hcomp.
        unfold loadQRData, compositions.
        destruct (truthy key); [|reflexivity].
        destruct (storedData W key); cbn; try reflexivity;
          rewrite flat_map_app; cbn; apply app_nil_r.
      * unfold render in Hstep. rewrite Hl in Hstep. discriminate Hstep.
      * unfold render in Hstep. rewrite Hl in Hstep. discriminate Hstep.
    + split; [reflexivity|].
      destruct (incomplete (qrData s)) eqn:Hinc; [|reflexivity].
      exfalso. destruct (Hclicks eq_refl) as [Hi Hp].
      destruct ev as [key| |]; try congruence.
      cbn in Hstep. inversion Hstep; subst s'. apply Hcomp.
      unfold loadQRData, compositions.
      destruct (truthy key); [|reflexivity].
      destruct (storedData W key); cbn; try reflexivity;
        rewrite flat_map_app; cbn; apply app_nil_r.
Qed.

Lemma incomplete_record_is_never_composed_witness :
  let W := Sample.world (N := float) [] [] in
  let s := Sample.ready float Sample.noDetails in
  incomplete (qrData s) = true /\
  render s = IncompleteDataView "بيانات غير مكتملة"%string /\
  step W s ClickImage = None /\
  step W s ClickPDF = None.
Proof.
  intros W s.
  destruct (@incomplete_record_is_never_composed float _ W s)
    as (_ & H & _).
  destruct (H eq_refl) as (Hview & Hi & Hp & _).
  split; [reflexivity|]. split; [exact (Hview eq_refl)|].
  split; assumption.
Defined.

(** ** The layout of the composed canvas (C3, C9, C10) *)

Section Layout.

Local Open Scope float_scope.



(** C10.  The office logo is drawn, as a 120 square with equal margins
    left and right at the top margin 100, exactly when [officeLogo] is not
    empty, and moves the cursor by 120 + 30; the label and the office name
    are drawn, 40 apart, exactly when [officeName] is not empty, and move
    the cursor by 40 and then 80.  So the details symbol starts at 100
    without branding, 250 with the logo only, 220 with the name only and
    370 with both, and of two records the one with more branding elements
    has its details symbol strictly lower. *)
Theorem office_block_layout :
  forall (W W' : World float) (d d' : QRData) (canvas canvas' : Canvas float),
    createQRCanvas W (Some d) = Resolved canvas ->
    createQRCanvas W' (Some d') = Resolved canvas' ->
    let afterLogo :=
      if truthy (officeLogo d) then 100 + (120 + 30) else 100 in
    let afterName :=
      if truthy (officeName d) then afterLogo + 40 + 80 else afterLogo in
    pictures canvas =
      (if truthy (officeLogo d)
       then [(officeLogo d, (540, 100, 120, 120))] else []) /\
    540 + 120 + 540 = width canvas /\
    texts canvas =
      (if truthy (officeName d)
       then [("المكتب الوسيط"%string, (600, afterLogo));
             (officeName d, (600, afterLogo + 40))]
       else []) ++
      [("تفاصيل العقار ومالك العقار"%string, (600, afterName + (900 + 50)));
       ("رخصة الإعلان من هيئة العقار"%string,
        (1200 - 150, afterName + (900 + 50) + 80 + 30 + 200 / 2))] /\
    detailsOffset canvas = Some afterName /\
    afterName =
      match truthy (officeLogo d), truthy (officeName d) with
      | false, false => 100
      | true, false => 250
      | false, true => 220
      | true, true => 370
      end /\
    ((brandingElements d < brandingElements d')%nat ->
     exists y y',
       detailsOffset canvas = Some y /\
       detailsOffset canvas' = Some y' /\
       (y <? y') = true).
Proof.
  intros W W' d d' canvas canvas' H H'.
  office_cases d; office_cases d'; run_in W H; run_in W' H';
    injection H as <-; injection H' as <-;
    cbv zeta; repeat split; try reflexivity;
    vm_compute; intros Hlt;
    first [ lia | do 2 eexists; repeat split; reflexivity ].
Qed.

Lemma office_block_layout_witness :
  let W := Sample.world (N := float) [] [] in
  let canvas := Sample.composed W Sample.nameOnly in
  let canvas' := Sample.composed W Sample.branded in
  detailsOffset canvas = Some 220 /\
  exists y y',
    detailsOffset canvas = Some y /\
    detailsOffset canvas' = Some y' /\
    (y <? y') = true.
Proof.
  intros W canvas canvas'.
  destruct (@office_block_layout W W Sample.nameOnly Sample.branded
              canvas canvas' eq_refl eq_refl)
    as (_ & _ & _ & Hoff & _ & Hmore).
  split; [exact Hoff|].
  apply Hmore. vm_compute. lia.
Defined.

End Layout.

(** C9.  Two compositions that resolve, of records that agree on whether
    the office name is there and on whether the office logo is there, give
    canvases of the same size whose calls have the same shapes: every
    position and size is a function of the two flags.  The same browser and
    the same record give the same canvas. *)
Theorem layout_is_determined_by_presence :
  forall (N : Type) (JSN : JSNumber N) (W1 W2 : World N) (d1 d2 : QRData)
         (c1 c2 : Canvas N),
    createQRCanvas W1 (Some d1) = Resolved c1 ->
    createQRCanvas W2 (Some d2) = Resolved c2 ->
    truthy (officeName d1) = truthy (officeName d2) ->
    truthy (officeLogo d1) = truthy (officeLogo d2) ->
    layout c1 = layout c2 /\
    width c1 = width c2 /\ height c1 = height c2 /\
    (W1 = W2 -> d1 = d2 -> c1 = c2).
Proof.
  intros N JSN W1 W2 d1 d2 c1 c2 H1 H2 Hname Hlogo.
  assert (Hsame : W1 = W2 -> d1 = d2 -> c1 = c2).
  { intros -> ->. rewrite H1 in H2. injection H2 as ->. reflexivity. }
  assert (Hlayout : layout c1 = layout c2).
  { clear Hsame. revert Hname Hlogo.
    office_cases d1; office_cases d2; cbn [truthy officeName officeLogo];
      intros Hname Hlogo; try discriminate Hname; try discriminate Hlogo;
      run_in W1 H1; run_in W2 H2;
      injection H1 as <-; injection H2 as <-; reflexivity. }
  split; [exact Hlayout|].
  unfold layout in Hlayout. injection Hlayout as Hw Hh _.
  repeat split; assumption.
Qed.

Lemma layout_is_determined_by_presence_witness :
  let W1 := Sample.world (N := float) [] [] in
  let W2 := Sample.world (N := float) ["/logo/logo.png"%string] [] in
  let other := mkQRData "https://example.org/c"%string
                        "https://example.org/d"%string
                        "Another office"%string
                        "data:image/jpeg;base64,AAAA"%string in
  layout (Sample.composed W1 Sample.branded)
    = layout (Sample.composed W2 other).
Proof.
  intros W1 W2 other.
  apply (@layout_is_determined_by_presence float _ W1 W2
           Sample.branded other
           (Sample.composed W1 Sample.branded) (Sample.composed W2 other));
    reflexivity.
Defined.

(** ** The logo badge (C4) *)

(** The trace of a symbol made with the logo, in any arithmetic. *)
Lemma createQRCodeImage_logo_trace {N : Type} {JSN : JSNumber N}
    (W : World N) (value : string) (size : N) (img : Image N) :
  createQRCodeImage W value size true = Resolved img ->
  imageLoads W (ImageOfUrl "/logo/logo.png"%string) = true ->
  exists url,
    qrEncode W value (toDataURLOptions size) = EncUrl url /\
    let side := (size / num 5)%js in
    let area := (side - side * dec 8 2 * num 2)%js in
    img = ImageOfCanvas size size
            [DrawImage (ImageOfUrl url) (num 0) (num 0) size size;
             SetFillStyle "#FFFFFF"%string;
             BeginPath;
             RoundRect (size / num 2 - side / num 2)%js
                       (size / num 2 - side / num 2)%js
                       side side (side * dec 2 1)%js;
             Fill;
             DrawImage (ImageOfUrl "/logo/logo.png"%string)
                       (size / num 2 - area / num 2)%js
                       (size / num 2 - area / num 2)%js
                       area area].
Proof.
  unfold createQRCodeImage, resolveFinalImg, toDataURL. intros H Hlogo.
  destruct (qrEncode W value (toDataURLOptions size)) as [e|e|url];
    try discriminate H.
  exists url. split; [reflexivity|].
  destruct (imageLoads W (ImageOfUrl url)); [|discriminate H].
  rewrite Hlogo in H. cbn in H.
  match type of H with
  | (if ?b then _ else _) = _ => destruct b; [|discriminate H]
  end.
  injection H as <-. reflexivity.
Qed.

(** C4.  In any arithmetic, binary64 included, and for every edge length
    [S]: a symbol made with the logo, the logo having loaded, is the symbol
    image with a white rounded rectangle and then the logo on it.  The
    rectangle is a square of side [S/5] whose corner is half a side left of
    and above the centre [(S/2, S/2)], with corner radius [side * 0.2]; the
    logo is drawn in a square of side [side - (side * 0.08) * 2], its
    corner half of that side left of and above the same centre. *)
Theorem logo_badge_geometry :
  forall (N : Type) (JSN : JSNumber N) (W : World N) (value : string)
         (S : N) (img : Image N),
    createQRCodeImage W value S true = Resolved img ->
    imageLoads W (ImageOfUrl "/logo/logo.png"%string) = true ->
    exists url side center radius padding area,
      side = (S / num 5)%js /\
      center = (S / num 2)%js /\
      radius = (side * dec 2 1)%js /\
      padding = (side * dec 8 2)%js /\
      area = (side - padding * num 2)%js /\
      img = ImageOfCanvas S S
              [DrawImage (ImageOfUrl url) (num 0) (num 0) S S;
               SetFillStyle "#FFFFFF"%string;
               BeginPath;
               RoundRect (center - side / num 2)%js
                         (center - side / num 2)%js
                         side side radius;
               Fill;
               DrawImage (ImageOfUrl "/logo/logo.png"%string)
                         (center - area / num 2)%js
                         (center - area / num 2)%js
                         area area].
Proof.
  intros N JSN W value S img H Hlogo.
  destruct (createQRCodeImage_logo_trace W value S H Hlogo)
    as (url & _ & Himg).
  exists url. do 5 eexists.
  repeat (split; [reflexivity|]). exact Himg.
Qed.

Lemma logo_badge_geometry_witness :
  let W := Sample.world (N := float) [] [] in
  let img := Sample.symbol W "https://example.com/a"%string mainQRSize true in
  exists (url : string) (side center radius padding area : float),
    side = 180%float /\ center = 450%float /\ radius = 36%float /\
    padding = Binary64.decimal 144 1 /\ area = Binary64.decimal 1512 1 /\
    img = ImageOfCanvas 900%float 900%float
            [DrawImage (ImageOfUrl url) 0%float 0%float 900%float 900%float;
             SetFillStyle "#FFFFFF"%string;
             BeginPath;
             RoundRect (center - side / 2)%float (center - side / 2)%float
                       side side radius;
             Fill;
             DrawImage (ImageOfUrl "/logo/logo.png"%string)
                       (center - area / 2)%float (center - area / 2)%float
                       area area].
Proof.
  intros W img.
  destruct (@logo_badge_geometry float _ W "https://example.com/a"%string
              mainQRSize img eq_refl eq_refl)
    as (url & side & center & radius & padding & area
        & Hs & Hc & Hr & Hp & Ha & Himg).
  exists url, side, center, radius, padding, area.
  subst side center radius padding area.
  repeat (split; [reflexivity|]). exact Himg.
Defined.

Section ExactGeometry.

Local Open Scope Q_scope.

Ltac exact_arith :=
  cbn [nadd nsub nmul ndiv math_min dec num ExactNum.Q_JSNumber];
  change (inject_Z 2) with 2; change (inject_Z 5) with 5;
  change (ExactNum.decimal 2 1) with (2 # 10);
  change (ExactNum.decimal 8 2) with (8 # 100);
  change (ExactNum.decimal 95 2) with (95 # 100).

(** The badge read in exact arithmetic: the rounded rectangle has side
    [S/5] and the same margin on all four sides, the logo square has side
    [side - 2 * (0.08 * side)], the same margin on all four sides, and
    lies [0.08 * side] inside the badge.  In binary64 each of these
    quantities is rounded, so the equalities hold there up to rounding
    only. *)
Lemma logo_badge_exact_margins :
  forall (W : World Q) (value : string) (S : Q) (img : Image Q),
    createQRCodeImage W value S true = Resolved img ->
    imageLoads W (ImageOfUrl "/logo/logo.png"%string) = true ->
    exists url bx by_ side radius lx ly area,
      img = ImageOfCanvas S S
              [DrawImage (ImageOfUrl url) 0 0 S S;
               SetFillStyle "#FFFFFF"%string;
               BeginPath;
               RoundRect bx by_ side side radius;
               Fill;
               DrawImage (ImageOfUrl "/logo/logo.png"%string)
                         lx ly area area] /\
      side == S / 5 /\
      bx + side + bx == S /\ by_ + side + by_ == S /\
      radius == (2 # 10) * side /\
      area == side - 2 * ((8 # 100) * side) /\
      lx + area + lx == S /\ ly + area + ly == S /\
      lx - bx == (8 # 100) * side /\ ly - by_ == (8 # 100) * side.
Proof.
  intros W value S img H Hlogo.
  destruct (createQRCodeImage_logo_trace W value S H Hlogo)
    as (url & _ & ->).
  exists url. do 7 eexists. split; [reflexivity|].
  exact_arith. repeat split; field.
Qed.

(** Where the bitmap lands on a page that has room for it: inside the
    page, with its proportions kept. *)
Lemma pdfPlacement_fits (pw ph w h : Q) :
  0 < w -> 0 < h -> 0 <= pw -> 0 <= ph ->
  let '(x, y, width, height) := pdfPlacement pw ph w h in
  0 <= x /\ 0 <= y /\ x + width <= pw /\ y + height <= ph /\
  width * h == height * w.
Proof.
  intros Hw Hh Hpw Hph. unfold pdfPlacement. exact_arith.
  set (r := Qmin (pw / w) (ph / h)).
  assert (H1 : w * r <= pw).
  { assert (E : w * (pw / w) == pw) by (field; lra).
    assert (H : r <= pw / w) by apply Q.le_min_l.
    apply Qle_trans with (1 := proj2 (Qmult_le_l _ _ _ Hw) H).
    rewrite E. apply Qle_refl. }
  assert (H2 : h * r <= ph).
  { assert (E : h * (ph / h) == ph) by (field; lra).
    assert (H : r <= ph / h) by apply Q.le_min_r.
    apply Qle_trans with (1 := proj2 (Qmult_le_l _ _ _ Hh) H).
    rewrite E. apply Qle_refl. }
  assert (H0 : 0 <= r).
  { unfold r. apply Q.min_glb; apply Qle_shift_div_l; lra. }
  assert (0 <= w * r) by (apply Qmult_le_0_compat; lra).
  assert (0 <= h * r) by (apply Qmult_le_0_compat; lra).
  clearbody r. unfold Qdiv. change (/ 2) with (1 # 2).
  repeat split; first [lra | ring].
Qed.

(** C5.  Whatever the arithmetic, the bitmap of size [w] by [h] is drawn
    on a page of size [pw] by [ph] at [((pw - w*r)/2, (ph - h*r)/2)] with
    size [w*r] by [h*r], where [r = min(pw/w, ph/h) * 0.95]; in exact
    arithmetic this leaves the same margin left and right, and the same
    above and below.  When composition resolves, [downloadAsPDF] saves a
    document of one page with one image on it, the composed bitmap at
    this placement for the page of the document, and resets its busy
    flag. *)
Theorem pdf_placement_scaled_and_centered :
  forall (N : Type) (JSN : JSNumber N) (W : World N) (s : State N)
         (d : QRData) (canvas : Canvas N),
    qrData s = Some d ->
    createQRCanvas W (Some d) = Resolved canvas ->
    (forall pw ph w h : N,
        pdfPlacement pw ph w h =
          let ratio := (math_min (pw / w) (ph / h) * dec 95 2)%js in
          (((pw - w * ratio) / num 2)%js, ((ph - h * ratio) / num 2)%js,
           (w * ratio)%js, (h * ratio)%js)) /\
    (forall pw ph w h : Q,
        let '(x, y, wd, ht) := pdfPlacement pw ph w h in
        let ratio := Qmin (pw / w) (ph / h) * (95 # 100) in
        wd == w * ratio /\ ht == h * ratio /\
        x + wd + x == pw /\ y + ht + y == ph) /\
    exists x y wd ht,
      pdfPlacement (pageWidth W) (pageHeight W)
                   (width canvas) (height canvas)
        = (x, y, wd, ht) /\
      downloadAsPDF W s =
        mkState ""%string (Some d) (isLoading s)
          (effects s ++
             [CreateQRCanvas (Resolved canvas);
              PdfSave ("رمز-QR-العقاري-" ++ string_of_Z (now W) ++ ".pdf")%string
                (mkPdfDoc "portrait"%string "mm"%string "a4"%string
                   [[mkPdfImage (toDataURL canvas) "PNG"%string
                                x y wd ht]])]).
Proof.
  intros N JSN W s d canvas Hd Hc. split; [|split].
  - reflexivity.
  - intros pw ph w h. unfold pdfPlacement. exact_arith.
    repeat split; first [reflexivity | field].
  - do 4 eexists. split; [reflexivity|].
    unfold downloadAsPDF. rewrite Hd. cbn. rewrite Hd, Hc.
    unfold pdfPlacement, setIsDownloading, effect, jsPDF, addImage.
    cbn. rewrite Hd, <- !app_assoc. reflexivity.
Qed.

Lemma pdf_placement_scaled_and_centered_witness :
  let W := Sample.world (N := Q) [] [] in
  let s := Sample.ready Q Sample.plain in
  let canvas := Sample.composed W Sample.plain in
  exists x y wd ht,
    pdfPlacement (pageWidth W) (pageHeight W)
                 (width canvas) (height canvas)
      = (x, y, wd, ht) /\
    downloadAsPDF W s =
      mkState ""%string (Some Sample.plain) (isLoading s)
        (effects s ++
           [CreateQRCanvas (Resolved canvas);
            PdfSave ("رمز-QR-العقاري-" ++ string_of_Z (now W) ++ ".pdf")%string
              (mkPdfDoc "portrait"%string "mm"%string "a4"%string
                 [[mkPdfImage (toDataURL canvas) "PNG"%string
                              x y wd ht]])]).
Proof.
  intros W s canvas.
  exact (proj2 (proj2 (@pdf_placement_scaled_and_centered Q _ W s
                         Sample.plain canvas eq_refl eq_refl))).
Defined.

End ExactGeometry.

(** * Further properties of the code *)

(** ** More about [createQRCodeImage] *)

(** X1.  Whenever [createQRCodeImage] resolves, the image is a canvas of
    the edge length asked for whose first call draws the encoder's symbol
    over all of it.  What follows holds a badge exactly when the logo was
    asked for, and draws the application logo exactly when it was asked
    for and loaded; without the logo nothing follows. *)
Theorem symbol_image_shape :
  forall (N : Type) (JSN : JSNumber N) (W : World N) (value : string)
         (size : N) (showLogo : bool) (img : Image N),
    createQRCodeImage W value size showLogo = Resolved img ->
    exists url rest,
      qrEncode W value (toDataURLOptions size) = EncUrl url /\
      img = ImageOfCanvas size size
              (DrawImage (ImageOfUrl url) (num 0) (num 0) size size :: rest) /\
      hasBadge rest = showLogo /\
      drawsAppLogo rest
        = (showLogo && imageLoads W (ImageOfUrl "/logo/logo.png"%string))%bool /\
      (showLogo = false -> rest = []).
Proof.
  intros N JSN W value size showLogo img.
  unfold createQRCodeImage, resolveFinalImg, toDataURL.
  destruct (qrEncode W value (toDataURLOptions size)) as [e|e|url];
    try discriminate.
  destruct (imageLoads W (ImageOfUrl url)); [|discriminate].
  destruct showLogo;
    [destruct (imageLoads W (ImageOfUrl "/logo/logo.png"%string))|]; cbn;
    (match goal with
     | |- (if ?b then _ else _) = _ -> _ => destruct b; [|discriminate]
     end);
    intros H; injection H as <-;
    exists url; eexists; repeat split; discriminate.
Qed.

Lemma symbol_image_shape_witness :
  let W := Sample.world (N := float) ["/logo/logo.png"%string] [] in
  exists url rest,
    Sample.symbol W "https://example.com/b"%string (num 150) true
      = ImageOfCanvas (num 150) (num 150)
          (DrawImage (ImageOfUrl url) (num 0) (num 0) (num 150) (num 150)
             :: rest) /\
    hasBadge rest = true /\ drawsAppLogo rest = false.
Proof.
  intros W.
  destruct (@symbol_image_shape float _ W "https://example.com/b"%string
              (num 150) true
              (Sample.symbol W "https://example.com/b"%string (num 150) true)
              eq_refl)
    as (url & rest & _ & Himg & Hbadge & Hlogo & _).
  exists url, rest. split; [exact Himg|]. split; [exact Hbadge|exact Hlogo].
Defined.

(** X2.  [createQRCodeImage] rejects only with the encoder's own error,
    with "Failed to load QR code" or with "Failed to create QR code image".
    The application logo is never a reason: once the encoder has answered
    and the browser decodes the symbol and the pictures of its canvases,
    the promise resolves whether the logo loads or not. *)
Theorem symbol_image_rejections :
  forall (N : Type) (JSN : JSNumber N) (W : World N) (value : string)
         (size : N) (showLogo : bool),
    (forall e, createQRCodeImage W value size showLogo = Rejected e ->
       encodeError W value size = Some e \/
       e = mkError "Failed to load QR code" \/
       e = mkError "Failed to create QR code image") /\
    (forall url,
       qrEncode W value (toDataURLOptions size) = EncUrl url ->
       imageLoads W (ImageOfUrl url) = true ->
       (forall w h t, imageLoads W (ImageOfCanvas w h t) = true) ->
       exists img, createQRCodeImage W value size showLogo = Resolved img).
Proof.
  intros N JSN W value size showLogo. split.
  - intros e. unfold createQRCodeImage, encodeError, resolveFinalImg.
    destruct (qrEncode W value (toDataURLOptions size)) as [e0|e0|url].
    + intros H; injection H as <-. left; reflexivity.
    + intros H; injection H as <-. left; reflexivity.
    + destruct (imageLoads W (ImageOfUrl url)).
      * destruct showLogo;
          [destruct (imageLoads W (ImageOfUrl "/logo/logo.png"%string))|];
          cbn;
          (match goal with
           | |- (if ?b then _ else _) = _ -> _ => destruct b; [discriminate|]
           end);
          intros H; injection H as <-; right; right; reflexivity.
      * intros H; injection H as <-. right; left; reflexivity.
  - intros url Henc Hqr Hcanvas.
    unfold createQRCodeImage, resolveFinalImg, toDataURL.
    rewrite Henc, Hqr.
    destruct showLogo;
      [destruct (imageLoads W (ImageOfUrl "/logo/logo.png"%string))|];
      cbn; rewrite Hcanvas; eexists; reflexivity.
Qed.

Lemma symbol_image_rejections_witness :
  let W := Sample.world (N := float) ["/logo/logo.png"%string] [] in
  exists img,
    createQRCodeImage W "https://example.com/a"%string mainQRSize true
      = Resolved img.
Proof.
  intros W.
  apply (proj2 (@symbol_image_rejections float _ W
                  "https://example.com/a"%string mainQRSize true)
          "data:image/png;qr,https://example.com/a"%string);
    reflexivity.
Defined.

(** ** When composition resolves and how it rejects *)

(** X3.  Composition of a record resolves exactly when the context is
    there, the office logo, if any, loads, and both symbols resolve. *)
Theorem composition_resolves_iff :
  forall (N : Type) (JSN : JSNumber N) (W : World N) (d : QRData),
    (exists canvas, createQRCanvas W (Some d) = Resolved canvas) <->
    context2d W = true /\
    (truthy (officeLogo d) = true ->
       imageLoads W (ImageOfUrl (officeLogo d)) = true) /\
    (exists img,
       createQRCodeImage W (details d) mainQRSize true = Resolved img) /\
    (exists img,
       createQRCodeImage W (license d) (num 150) false = Resolved img).
Proof.
  intros N JSN W d. split.
  - intros [canvas H]. exact (createQRCanvas_resolved_inv W d H).
  - intros (Hctx & Hlogo & [im Hm] & [il Hq]).
    unfold createQRCanvas. fold (@mainQRSize N JSN). rewrite Hctx.
    destruct (truthy (officeName d)), (truthy (officeLogo d));
      cbn [await orb negb];
      try rewrite (Hlogo eq_refl); cbn [await];
      rewrite Hm; cbn [await]; rewrite Hq; cbn [await];
      eexists; reflexivity.
Qed.

(** X4.  Every rejection of [createQRCanvas] is one of five: no record,
    no context, an office logo that does not load, the rejection of the
    details symbol, or, the details symbol made, the rejection of the
    license symbol. *)
Theorem composition_rejections :
  forall (N : Type) (JSN : JSNumber N) (W : World N)
         (q : option QRData) (e : Error),
    createQRCanvas W q = Rejected e ->
    (q = None /\ e = mkError "No QR data available") \/
    (context2d W = false /\ e = mkError "Could not get canvas context") \/
    (exists d, q = Some d /\ truthy (officeLogo d) = true /\
               imageLoads W (ImageOfUrl (officeLogo d)) = false /\
               e = mkError "Failed to load office logo") \/
    (exists d, q = Some d /\
               createQRCodeImage W (details d) mainQRSize true = Rejected e) \/
    (exists d img, q = Some d /\
               createQRCodeImage W (details d) mainQRSize true = Resolved img /\
               createQRCodeImage W (license d) (num 150) false = Rejected e).
Proof.
  intros N JSN W q e H. destruct q as [d|].
  2:{ left. cbn in H. injection H as <-. split; reflexivity. }
  right. unfold createQRCanvas in H. fold (@mainQRSize N JSN) in H.
  destruct (context2d W) eqn:Hctx.
  2:{ left. cbn in H. injection H as <-. split; reflexivity. }
  right. cbn [negb] in H.
  destruct (createQRCodeImage W (details d) mainQRSize true) as [m|em] eqn:Hm;
    destruct (createQRCodeImage W (license d) (num 150) false) as [l|el] eqn:Hq;
    destruct (truthy (officeLogo d)) eqn:Hlogo;
    try destruct (imageLoads W (ImageOfUrl (officeLogo d))) eqn:Hl;
    destruct (truthy (officeName d));
    cbn [await orb negb] in H; try discriminate H; injection H as <-;
    first
      [ solve [left; exists d; repeat split; first [reflexivity|assumption]]
      | solve [right; left; exists d; split; first [reflexivity|assumption]]
      | solve [right; right; exists d; eexists; repeat split;
               first [reflexivity|eassumption]] ].
Qed.

Lemma composition_resolves_iff_witness :
  let W := Sample.world (N := float) [] [] in
  exists canvas, createQRCanvas W (Some Sample.branded) = Resolved canvas.
Proof.
  intros W.
  apply (proj2 (@composition_resolves_iff float _ W Sample.branded)).
  split; [reflexivity|]. split; [reflexivity|].
  split; eexists; reflexivity.
Defined.

Lemma composition_rejections_witness :
  let W := Sample.world (N := float) [] ["https://example.com/b"%string] in
  exists d img e,
    createQRCodeImage W (details d) mainQRSize true = Resolved img /\
    createQRCodeImage W (license d) (num 150) false = Rejected e.
Proof.
  intros W.
  destruct (@composition_rejections float _ W (Some Sample.plain)
              (mkError "The amount of data is too big to be stored in a QR Code")
              eq_refl)
    as [[H _] | [[H _] | [(d & Hd & H & _) | [(d & Hd & H)
                                             | (d & img & Hd & Hm & Hq)]]]].
  - discriminate H.
  - vm_compute in H. discriminate H.
  - injection Hd as <-. vm_compute in H. discriminate H.
  - injection Hd as <-. vm_compute in H. discriminate H.
  - exists d, img. eexists. split; [exact Hm|exact Hq].
Defined.

(** ** How the composed canvas is painted *)

(** X5.  On every composed canvas each text is painted in black on the
    middle baseline with a font of the stack "Tajawal, Segoe UI, Tahoma,
    Arial, sans-serif"; all texts are centered but the last, the license
    caption, which is right-aligned; the background is filled white and
    the license panel with [#f8f9fa]. *)
Theorem composed_canvas_styles :
  forall (N : Type) (JSN : JSNumber N) (W : World N) (d : QRData)
         (canvas : Canvas N),
    createQRCanvas W (Some d) = Resolved canvas ->
    let painted := styledTexts defaultStyle (trace canvas) in
    map fst painted = map fst (texts canvas) /\
    Forall (fun p =>
              st_fillStyle (snd p) = "#000000"%string /\
              st_textBaseline (snd p) = "middle"%string /\
              exists weight px,
                st_font (snd p)
                  = Some (weight, px,
                          "Tajawal, Segoe UI, Tahoma, Arial, sans-serif"%string))
           painted /\
    map (fun p => st_textAlign (snd p)) painted
      = repeat "center"%string (List.length painted - 1) ++ ["right"%string] /\
    rectFills defaultStyle (trace canvas)
      = ["#ffffff"%string; "#f8f9fa"%string].
Proof.
  intros N JSN W d canvas H. office_cases d; run_in W H;
    injection H as <-; cbv zeta;
    (split; [reflexivity|]);
    (split; [repeat constructor; eexists; eexists; reflexivity|]);
    split; reflexivity.
Qed.

Lemma composed_canvas_styles_witness :
  let W := Sample.world (N := float) [] [] in
  rectFills defaultStyle (trace (Sample.composed W Sample.branded))
    = ["#ffffff"%string; "#f8f9fa"%string].
Proof.
  intros W.
  exact (proj2 (proj2 (proj2
           (@composed_canvas_styles float _ W Sample.branded
              (Sample.composed W Sample.branded) eq_refl)))).
Defined.

(** X6.  In binary64: every rectangle filled and every image drawn on a
    composed canvas lies on the canvas unless the record has both the
    office name and the office logo.  Texts are not measured: [fillText]
    is called without a width limit, so a long office name can leave the
    canvas in any case.  The license panel ends at 1360, 1510, 1480 or
    1630 and the license symbol 25 above that; with both branding elements
    that is below the canvas height 1600. *)
Theorem license_panel_leaves_canvas_with_full_branding :
  forall (W : World float) (d : QRData) (canvas : Canvas float),
    createQRCanvas W (Some d) = Resolved canvas ->
    boxesOnCanvas canvas = negb (truthy (officeName d) && truthy (officeLogo d)) /\
    exists py ly licenseImg,
      nth_error (rects canvas) 1 = Some (50, py, 1100, 200)%float /\
      nth_error (symbols canvas) 1 = Some (licenseImg, (150, ly, 150, 150))%float /\
      (py + 200)%float =
        match truthy (officeLogo d), truthy (officeName d) with
        | false, false => 1360
        | true, false => 1510
        | false, true => 1480
        | true, true => 1630
        end%float /\
      (ly + 150)%float = ((py + 200) - 25)%float.
Proof.
  intros W d canvas H. office_cases d; run_in W H;
    injection H as <-;
    (split; [reflexivity|]);
    do 3 eexists; repeat split; reflexivity.
Qed.

Lemma license_panel_leaves_canvas_with_full_branding_witness :
  let W := Sample.world (N := float) [] [] in
  boxesOnCanvas (Sample.composed W Sample.branded) = false /\
  boxesOnCanvas (Sample.composed W Sample.logoOnly) = true.
Proof.
  intros W. split.
  - exact (proj1 (@license_panel_leaves_canvas_with_full_branding W
                    Sample.branded (Sample.composed W Sample.branded) eq_refl)).
  - exact (proj1 (@license_panel_leaves_canvas_with_full_branding W
                    Sample.logoOnly (Sample.composed W Sample.logoOnly) eq_refl)).
Defined.

(** ** More about the exporters and the page *)

Section Exporting.

Context {N : Type} {JSN : JSNumber N}.
Variable W : World N.

Lemma downloadAsImage_resolved (s : State N) (d : QRData) (canvas : Canvas N) :
  qrData s = Some d ->
  createQRCanvas W (Some d) = Resolved canvas ->
  downloadAsImage W s =
    mkState ""%string (Some d) (isLoading s)
      (effects s ++
         [CreateQRCanvas (Resolved canvas);
          LinkClick ("رمز-QR-العقاري-" ++ string_of_Z (now W) ++ ".png")%string
                    (toDataURL canvas)]).
Proof.
  intros Hd Hc. unfold downloadAsImage. rewrite Hd. cbn.
  rewrite Hd, Hc. unfold setIsDownloading, effect. cbn.
  rewrite Hd, <- !app_assoc. reflexivity.
Qed.

Lemma downloadAsPDF_resolved (s : State N) (d : QRData) (canvas : Canvas N) :
  qrData s = Some d ->
  createQRCanvas W (Some d) = Resolved canvas ->
  exists x y wd ht,
    downloadAsPDF W s =
      mkState ""%string (Some d) (isLoading s)
        (effects s ++
           [CreateQRCanvas (Resolved canvas);
            PdfSave ("رمز-QR-العقاري-" ++ string_of_Z (now W) ++ ".pdf")%string
              (mkPdfDoc "portrait"%string "mm"%string "a4"%string
                 [[mkPdfImage (toDataURL canvas) "PNG"%string x y wd ht]])]).
Proof.
  intros Hd Hc. do 4 eexists.
  unfold downloadAsPDF. rewrite Hd. cbn. rewrite Hd, Hc.
  unfold pdfPlacement, setIsDownloading, effect, jsPDF, addImage.
  cbn. rewrite Hd, <- !app_assoc. reflexivity.
Qed.

End Exporting.

(** X7.  Without a record both download handlers only alert "no data":
    [createQRCanvas] is not called, nothing is saved and the busy flag is
    not touched. *)
Theorem download_without_record :
  forall (N : Type) (JSN : JSNumber N) (W : World N) (s : State N),
    qrData s = None ->
    let s1 := downloadAsImage W s in
    let s2 := downloadAsPDF W s in
    alerts s1 = alerts s ++ ["لا توجد بيانات متاحة للتحميل"%string] /\
    alerts s2 = alerts s ++ ["لا توجد بيانات متاحة للتحميل"%string] /\
    compositions s1 = compositions s /\ compositions s2 = compositions s /\
    files s1 = files s /\ files s2 = files s /\
    isDownloading s1 = isDownloading s /\ isDownloading s2 = isDownloading s.
Proof.
  intros N JSN W s Hd. unfold downloadAsImage, downloadAsPDF. rewrite Hd.
  unfold alerts, compositions, files, effect. cbn.
  rewrite !flat_map_app. cbn. rewrite !app_nil_r. repeat split.
Qed.

Lemma download_without_record_witness :
  let W := Sample.world (N := float) [] [] in
  files (downloadAsImage W initialState) = [] /\
  compositions (downloadAsPDF W initialState) = [].
Proof.
  intros W.
  destruct (@download_without_record float _ W initialState eq_refl)
    as (_ & _ & _ & Hc & Hf & _).
  split; [exact Hf|exact Hc].
Defined.

Section Clicks.

Context {N : Type} {JSN : JSNumber N}.
Variable W : World N.

(** A click is taken only on the main view: a complete record is loaded and
    no export is running. *)
Lemma click_enabled (s s' : State N) (ev : Event) :
  step W s ev = Some s' -> isClick ev ->
  exists d, qrData s = Some d /\ incomplete (qrData s) = false /\
            isLoading s = false /\
            (s' = downloadAsImage W s \/ s' = downloadAsPDF W s).
Proof.
  intros Hstep Hev. unfold step, render in Hstep.
  destruct (isLoading s) eqn:Hl.
  { destruct Hev as [-> | ->]; discriminate Hstep. }
  destruct (incomplete (qrData s)) eqn:Hinc.
  { destruct Hev as [-> | ->]; discriminate Hstep. }
  destruct (qrData s) as [d|] eqn:Hd.
  2:{ destruct Hev as [-> | ->]; discriminate Hstep. }
  exists d. repeat split.
  destruct Hev as [-> | ->]; destruct (truthy (isDownloading s));
    try discriminate Hstep; injection Hstep as <-; [left|right]; reflexivity.
Qed.

(** What one step adds to the files, the alerts and the compositions. *)
Lemma step_counts (s s' : State N) (ev : Event) :
  step W s ev = Some s' ->
  let k := clicks [ev] in
  (List.length (files s') + List.length (alerts s')
     = List.length (files s) + List.length (alerts s) + k)%nat /\
  List.length (compositions s') = (List.length (compositions s) + k)%nat /\
  (forall m, In m (alerts s') ->
     In m (alerts s) \/ m = "حدث خطأ أثناء حفظ الصورة"%string \/
     m = "حدث خطأ أثناء حفظ PDF"%string).
Proof.
  intros Hstep.
  destruct ev as [key| |].
  - cbn in Hstep. injection Hstep as <-. cbn.
    assert (H : files (loadQRData W key s) = files s /\
                alerts (loadQRData W key s) = alerts s /\
                compositions (loadQRData W key s) = compositions s).
    { unfold loadQRData, files, alerts, compositions.
      destruct (truthy key); [|repeat split].
      destruct (storedData W key); cbn; rewrite ?flat_map_app; cbn;
        rewrite ?app_nil_r; repeat split. }
    destruct H as (-> & -> & ->). repeat split; try lia. intros m Hm; left; exact Hm.
  - destruct (@click_enabled s s' ClickImage Hstep (or_introl eq_refl))
      as (d & Hd & _ & _ & [-> | ->]);
      (destruct (createQRCanvas W (Some d)) as [canvas|e] eqn:Hc;
       [ first [ rewrite (downloadAsImage_resolved W s Hd Hc)
               | destruct (downloadAsPDF_resolved W s Hd Hc)
                   as (x & y & wd & ht & ->) ]
       | first [ rewrite (downloadAsImage_rejected W s Hd Hc)
               | rewrite (downloadAsPDF_rejected W s Hd Hc) ] ]);
      unfold files, alerts, compositions; cbn;
      rewrite !flat_map_app; cbn; rewrite ?app_nil_r, ?length_app; cbn;
      (split; [lia | split; [lia|]]);
      intros m Hm; try (left; exact Hm);
      apply in_app_or in Hm; destruct Hm as [Hm | [<- | []]]; auto.
  - destruct (@click_enabled s s' ClickPDF Hstep (or_intror eq_refl))
      as (d & Hd & _ & _ & [-> | ->]);
      (destruct (createQRCanvas W (Some d)) as [canvas|e] eqn:Hc;
       [ first [ rewrite (downloadAsImage_resolved W s Hd Hc)
               | destruct (downloadAsPDF_resolved W s Hd Hc)
                   as (x & y & wd & ht & ->) ]
       | first [ rewrite (downloadAsImage_rejected W s Hd Hc)
               | rewrite (downloadAsPDF_rejected W s Hd Hc) ] ]);
      unfold files, alerts, compositions; cbn;
      rewrite !flat_map_app; cbn; rewrite ?app_nil_r, ?length_app; cbn;
      (split; [lia | split; [lia|]]);
      intros m Hm; try (left; exact Hm);
      apply in_app_or in Hm; destruct Hm as [Hm | [<- | []]]; auto.
Qed.

End Clicks.

(** X8.  Along every run of the page each click is answered exactly once:
    by one composition, and by either one saved file or one alert.  The
    only alerts a run adds are the two failure alerts; the "no data" alert
    cannot be reached by clicking. *)
Theorem every_click_is_answered_once :
  forall (N : Type) (JSN : JSNumber N) (W : World N)
         (s s' : State N) (evs : list Event),
    run W s evs s' ->
    (List.length (files s') + List.length (alerts s')
       = List.length (files s) + List.length (alerts s) + clicks evs)%nat /\
    List.length (compositions s')
      = (List.length (compositions s) + clicks evs)%nat /\
    (forall m, In m (alerts s') ->
       In m (alerts s) \/ m = "حدث خطأ أثناء حفظ الصورة"%string \/
       m = "حدث خطأ أثناء حفظ PDF"%string).
Proof.
  intros N JSN W s s' evs Hrun.
  induction Hrun as [s|s ev s1 evs s2 Hstep Hrun IH].
  - cbn. repeat split; try lia. intros m Hm; left; exact Hm.
  - destruct (@step_counts N JSN W s s1 ev Hstep) as (Hf & Hc & Ha).
    destruct IH as (IHf & IHc & IHa).
    assert (Hk : clicks (ev :: evs) = (clicks [ev] + clicks evs)%nat).
    { unfold clicks. cbn. destruct ev; reflexivity. }
    rewrite Hk. repeat split; try lia.
    intros m Hm. destruct (IHa m Hm) as [H1 | H1]; [|right; exact H1].
    exact (Ha m H1).
Qed.

Lemma every_click_is_answered_once_witness :
  let W := Sample.world (N := float) [] ["https://example.com/b"%string] in
  let s := Sample.ready float Sample.plain in
  exists s',
    run W s [ClickImage; ClickPDF] s' /\
    List.length (files s') = 0%nat /\ List.length (alerts s') = 2%nat.
Proof.
  intros W s.
  assert (Hrun : run W s [ClickImage; ClickPDF]
                   (downloadAsPDF W (downloadAsImage W s))).
  { eapply run_cons; [reflexivity|].
    eapply run_cons; [reflexivity|]. apply run_nil. }
  exists (downloadAsPDF W (downloadAsImage W s)).
  destruct (@every_click_is_answered_once float _ W s _ _ Hrun) as (Hf & _).
  split; [exact Hrun|]. split; reflexivity.
Defined.

(** ** File names and keys made of a clock reading *)

Lemma string_of_Z_inj (a b : Z) : string_of_Z a = string_of_Z b -> a = b.
Proof.
  unfold string_of_Z. intros H. apply DecimalZ.to_int_inj.
  assert (Hnn : forall z, Z.to_int z <> Decimal.Pos Decimal.Nil /\
                          Z.to_int z <> Decimal.Neg Decimal.Nil).
  { intros [|p|p]; cbn; split; try discriminate;
      intros E; injection E as E; exact (DecimalPos.Unsigned.to_uint_nonnil _ E). }
  apply (f_equal NilZero.int_of_string) in H.
  rewrite !NilZero.isi in H by apply Hnn.
  injection H as H. exact H.
Qed.

Lemma append_inj_l (p a b : string) : (p ++ a = p ++ b)%string -> a = b.
Proof.
  induction p as [|c p IH]; cbn; intros H; [exact H|].
  injection H as H. exact (IH H).
Qed.

Lemma string_length_append (a b : string) :
  String.length (a ++ b)%string = (String.length a + String.length b)%nat.
Proof. induction a as [|c a IH]; cbn; [reflexivity|]. rewrite IH. reflexivity. Qed.

Lemma append_inj_r (a b t : string) : (a ++ t = b ++ t)%string -> a = b.
Proof.
  revert b. induction a as [|c a IH]; intros [|c' b] H; cbn in H.
  - reflexivity.
  - apply (f_equal String.length) in H. cbn in H. rewrite string_length_append in H. lia.
  - apply (f_equal String.length) in H. cbn in H. rewrite string_length_append in H. lia.
  - injection H as -> H. f_equal. exact (IH b H).
Qed.

Lemma string_append_assoc (a b c : string) :
  (a ++ (b ++ c) = (a ++ b) ++ c)%string.
Proof. induction a as [|ch a IH]; cbn; [reflexivity|]. rewrite IH. reflexivity. Qed.

Lemma append_last_inj (u v : string) (x y : Ascii.ascii) :
  (u ++ String x "" = v ++ String y "")%string -> x = y.
Proof.
  revert v. induction u as [|c u IH]; intros [|c' v] H; cbn in H.
  - injection H as H. exact H.
  - injection H as _ H. destruct v; discriminate H.
  - injection H as _ H. destruct u; discriminate H.
  - injection H as _ H. exact (IH v H).
Qed.

Lemma png_is_not_pdf (a b : string) : (a ++ ".png" <> b ++ ".pdf")%string.
Proof.
  intros E.
  change ".png"%string with (".pn" ++ "g")%string in E.
  change ".pdf"%string with (".pd" ++ "f")%string in E.
  rewrite !string_append_assoc in E. apply append_last_inj in E. discriminate E.
Qed.

(** X11.  The names of two exported files of the same kind are equal
    exactly when their clock readings are; an image and a document never
    share a name. *)
Theorem export_names_differ :
  forall (N : Type) (JSN : JSNumber N) (W1 W2 : World N) (s1 s2 : State N)
         (d1 d2 : QRData) (c1 c2 : Canvas N),
    qrData s1 = Some d1 -> createQRCanvas W1 (Some d1) = Resolved c1 ->
    qrData s2 = Some d2 -> createQRCanvas W2 (Some d2) = Resolved c2 ->
    exists png1 pdf1 png2 pdf2,
      files (downloadAsImage W1 s1) = files s1 ++ [png1] /\
      files (downloadAsPDF W1 s1) = files s1 ++ [pdf1] /\
      files (downloadAsImage W2 s2) = files s2 ++ [png2] /\
      files (downloadAsPDF W2 s2) = files s2 ++ [pdf2] /\
      png1 <> pdf2 /\ pdf1 <> png2 /\
      (png1 = png2 <-> now W1 = now W2) /\
      (pdf1 = pdf2 <-> now W1 = now W2).
Proof.
  intros N JSN W1 W2 s1 s2 d1 d2 c1 c2 Hd1 Hc1 Hd2 Hc2.
  destruct (downloadAsPDF_resolved W1 s1 Hd1 Hc1) as (x1 & y1 & w1 & h1 & Hp1).
  destruct (downloadAsPDF_resolved W2 s2 Hd2 Hc2) as (x2 & y2 & w2 & h2 & Hp2).
  rewrite (downloadAsImage_resolved W1 s1 Hd1 Hc1),
          (downloadAsImage_resolved W2 s2 Hd2 Hc2), Hp1, Hp2.
  do 4 eexists.
  unfold files. cbn [effects]. rewrite !flat_map_app. cbn [flat_map app].
  repeat (split; [reflexivity|]).
  split; [|split; [|split]].
  - intros E. apply append_inj_l in E. exact (png_is_not_pdf _ _ E).
  - intros E. apply append_inj_l in E. symmetry in E. exact (png_is_not_pdf _ _ E).
  - split.
    + intros E. apply append_inj_l, append_inj_r in E.
      exact (string_of_Z_inj _ _ E).
    + intros ->. reflexivity.
  - split.
    + intros E. apply append_inj_l, append_inj_r in E.
      exact (string_of_Z_inj _ _ E).
    + intros ->. reflexivity.
Qed.

Lemma export_names_differ_witness :
  let W1 := Sample.world (N := float) [] [] in
  let W2 := mkWorld (qrEncode W1) (imageLoads W1) true (storedData W1)
                    1700000000001 (pageWidth W1) (pageHeight W1) in
  let s := Sample.ready float Sample.plain in
  exists png1 png2,
    files (downloadAsImage W1 s) = [png1] /\
    files (downloadAsImage W2 s) = [png2] /\
    png1 <> png2.
Proof.
  intros W1 W2 s.
  destruct (@export_names_differ float _ W1 W2 s s Sample.plain Sample.plain
              (Sample.composed W1 Sample.plain)
              (Sample.composed W2 Sample.plain)
              eq_refl eq_refl eq_refl eq_refl)
    as (png1 & pdf1 & png2 & pdf2 & H1 & _ & H2 & _ & _ & _ & Hpng & _).
  exists png1, png2. split; [exact H1|]. split; [exact H2|].
  intros E. apply Hpng in E. discriminate E.
Defined.

(** ** Both exporters save the composed bitmap *)

(** X9.  When composition resolves, the image exporter saves the picture
    of the composed canvas and the PDF exporter a document whose only
    image is that same picture; neither alerts and both reset the busy
    flag. *)
Theorem exporters_save_the_composed_bitmap :
  forall (N : Type) (JSN : JSNumber N) (W : World N) (s : State N)
         (d : QRData) (canvas : Canvas N),
    qrData s = Some d ->
    createQRCanvas W (Some d) = Resolved canvas ->
    (exists name,
       effects (downloadAsImage W s) =
         effects s ++ [CreateQRCanvas (Resolved canvas);
                       LinkClick name (toDataURL canvas)]) /\
    (exists name doc,
       effects (downloadAsPDF W s) =
         effects s ++ [CreateQRCanvas (Resolved canvas); PdfSave name doc] /\
       map (map (@imageData N)) (pages doc) = [[toDataURL canvas]]) /\
    alerts (downloadAsImage W s) = alerts s /\
    alerts (downloadAsPDF W s) = alerts s /\
    isDownloading (downloadAsImage W s) = ""%string /\
    isDownloading (downloadAsPDF W s) = ""%string.
Proof.
  intros N JSN W s d canvas Hd Hc.
  destruct (downloadAsPDF_resolved W s Hd Hc) as (x & y & wd & ht & Hp).
  rewrite (downloadAsImage_resolved W s Hd Hc), Hp.
  split; [eexists; reflexivity|].
  split; [do 2 eexists; split; reflexivity|].
  unfold alerts. cbn [effects isDownloading].
  rewrite !flat_map_app. cbn. rewrite !app_nil_r. repeat split.
Qed.

Lemma exporters_save_the_composed_bitmap_witness :
  let W := Sample.world (N := float) [] [] in
  let s := Sample.ready float Sample.branded in
  alerts (downloadAsImage W s) = [] /\
  isDownloading (downloadAsPDF W s) = ""%string.
Proof.
  intros W s.
  destruct (@exporters_save_the_composed_bitmap float _ W s Sample.branded
              (Sample.composed W Sample.branded) eq_refl eq_refl)
    as (_ & _ & Ha & _ & _ & Hb).
  split; [exact Ha|exact Hb].
Defined.

(** ** The page after the load effect *)

(** What a fresh page returns after its load effect: the main view of the
    one record storage holds complete, or the "incomplete data" card. *)
Lemma render_after_load {N : Type} {JSN : JSNumber N} (W : World N)
    (key : string) :
  let s := loadQRData W key (@initialState N) in
  (exists d, storedComplete W key d /\ render s = MainView d false false) \/
  ((forall d, ~ storedComplete W key d) /\
   render s = IncompleteDataView "بيانات غير مكتملة"%string).
Proof.
  cbv zeta. unfold loadQRData, storedComplete.
  destruct (truthy key) eqn:Hk.
  2:{ right. split; [intros d (H & _); discriminate H|reflexivity]. }
  destruct (storedData W key) as [e| |e|d0] eqn:Hs;
    try (right; split; [intros d (_ & H & _); discriminate H|reflexivity]).
  unfold render. cbn.
  destruct (details d0) as [|c1 t1] eqn:Hd; cbn;
    [|destruct (license d0) as [|c2 t2] eqn:Hl; cbn].
  - right. split; [|reflexivity].
    intros d (_ & H & Hnd & _). injection H as <-. congruence.
  - right. split; [|reflexivity].
    intros d (_ & H & _ & Hnl). injection H as <-. congruence.
  - left. exists d0. rewrite Hd, Hl.
    repeat split; discriminate.
Qed.

Lemma storedComplete_unique {N : Type} (W : World N) (key : string)
    (d d' : QRData) :
  storedComplete W key d -> storedComplete W key d' -> d = d'.
Proof.
  intros (_ & H & _) (_ & H' & _). rewrite H in H'. injection H' as H'.
  exact H'.
Qed.

(** X10.  After the load effect has run on a fresh page the spinner is
    gone.  The main view is on screen exactly when the key is not empty,
    storage holds under it a record with both URLs, and [QRCodeSVG] can
    make both previews; with such a record whose previews do not fit,
    rendering throws and nothing is shown; in every other case (no key, no
    item, an exception of storage or of the parser, an incomplete record)
    the "incomplete data" card is shown.  Loading saves nothing, alerts
    nothing and composes nothing. *)
Theorem page_after_load :
  forall (N : Type) (JSN : JSNumber N) (W : World N) (key : string)
         (svgFits : QRCodeSVG -> bool) (innerWidth : option Z),
    let s := loadQRData W key initialState in
    (forall d,
       screen svgFits innerWidth s = Shown (MainView d false false) <->
       storedComplete W key d /\
       forallb svgFits (previews innerWidth d) = true) /\
    (screen svgFits innerWidth s = RenderThrows <->
     exists d, storedComplete W key d /\
               forallb svgFits (previews innerWidth d) = false) /\
    ((forall d, ~ storedComplete W key d) ->
     screen svgFits innerWidth s
       = Shown (IncompleteDataView "بيانات غير مكتملة"%string)) /\
    screen svgFits innerWidth s <> Shown LoadingView /\
    files s = [] /\ alerts s = [] /\ compositions s = [] /\
    isDownloading s = ""%string.
Proof.
  intros N JSN W key svgFits innerWidth. cbv zeta.
  assert (Hquiet :
    files (loadQRData W key (@initialState N)) = [] /\
    alerts (loadQRData W key (@initialState N)) = [] /\
    compositions (loadQRData W key (@initialState N)) = [] /\
    isDownloading (loadQRData W key (@initialState N)) = ""%string).
  { unfold loadQRData. destruct (truthy key); [|repeat split].
    destruct (storedData W key); repeat split. }
  destruct (render_after_load W key) as [[d0 [Hc Hr]] | [Hnone Hr]];
    unfold screen; rewrite Hr.
  - destruct (forallb svgFits (previews innerWidth d0)) eqn:Hfit.
    + split; [|split; [|split; [|split]]]; try exact Hquiet.
      * intros d. split.
        -- intros H. injection H as <-. split; assumption.
        -- intros [Hd _]. rewrite (storedComplete_unique Hd Hc). reflexivity.
      * split; [discriminate|].
        intros [d [Hd Hf]]. rewrite (storedComplete_unique Hd Hc) in Hf.
        congruence.
      * intros H. exfalso. exact (H d0 Hc).
      * discriminate.
    + split; [|split; [|split; [|split]]]; try exact Hquiet.
      * intros d. split; [discriminate|].
        intros [Hd Hf]. rewrite (storedComplete_unique Hd Hc) in Hf.
        congruence.
      * split; [|reflexivity]. intros _. exists d0. split; assumption.
      * intros H. exfalso. exact (H d0 Hc).
      * discriminate.
  - split; [|split; [|split; [|split]]]; try exact Hquiet.
    + intros d. split; [discriminate|]. intros [Hd _]. exfalso.
      exact (Hnone d Hd).
    + split; [discriminate|]. intros [d [Hd _]]. exfalso. exact (Hnone d Hd).
    + intros _. reflexivity.
    + discriminate.
Qed.

Lemma page_after_load_witness :
  let W := Sample.world (N := float) [] [] in
  let short := fun q : QRCodeSVG => (String.length (svg_value q) <=? 1273)%nat in
  screen short (Some 1024%Z) (loadQRData W "qrData_1" initialState)
    = Shown (MainView Sample.plain false false) /\
  screen short (Some 1024%Z) (loadQRData W "qrData_2" initialState)
    = Shown (IncompleteDataView "بيانات غير مكتملة"%string).
Proof.
  intros W short.
  destruct (@page_after_load float _ W "qrData_1"%string short (Some 1024%Z))
    as (H1 & _).
  destruct (@page_after_load float _ W "qrData_2"%string short (Some 1024%Z))
    as (_ & _ & H3 & _).
  split.
  - apply H1. split; [|reflexivity]. repeat split; discriminate.
  - apply H3. intros d (_ & Hd & _). discriminate Hd.
Defined.

(** ** The input page *)

Section HomePage.

Variable B : Home.Browser.

Lemma truthy_iff (v : string) : truthy v = true <-> v <> ""%string.
Proof. destruct v; cbn; split; try congruence; discriminate. Qed.

Lemma newErrors_empty_iff (s : Home.State) :
  (Home.details (Home.newErrors B s) = ""%string <->
     Home.propertyDetails s <> ""%string /\
     Home.urlParses B (Home.propertyDetails s) = true) /\
  (Home.license (Home.newErrors B s) = ""%string <->
     Home.propertyLicense s <> ""%string /\
     Home.urlParses B (Home.propertyLicense s) = true).
Proof.
  unfold Home.newErrors, Home.validateUrl. cbn.
  split.
  - destruct (Home.propertyDetails s) as [|c t]; cbn.
    + split; [discriminate|intros [H _]; congruence].
    + destruct (Home.urlParses B (String c t)); cbn; split;
        try discriminate; try (intros [_ H]; discriminate H);
        intros _; split; [discriminate|reflexivity].
  - destruct (Home.propertyLicense s) as [|c t]; cbn.
    + split; [discriminate|intros [H _]; congruence].
    + destruct (Home.urlParses B (String c t)); cbn; split;
        try discriminate; try (intros [_ H]; discriminate H);
        intros _; split; [discriminate|reflexivity].
Qed.

Lemma validForm_iff (s : Home.State) :
  validForm B s <->
  (negb (truthy (Home.details (Home.newErrors B s))) &&
   negb (truthy (Home.license (Home.newErrors B s))))%bool = true.
Proof.
  destruct (newErrors_empty_iff s) as [Hd Hl]. unfold validForm.
  rewrite andb_true_iff, !negb_true_iff.
  split.
  - intros (H1 & H2 & H3 & H4).
    rewrite (proj2 Hd (conj H1 H2)), (proj2 Hl (conj H3 H4)). split; reflexivity.
  - intros [H1 H2].
    assert (E1 : Home.details (Home.newErrors B s) = ""%string)
      by (destruct (Home.details (Home.newErrors B s)); [reflexivity|discriminate H1]).
    assert (E2 : Home.license (Home.newErrors B s) = ""%string)
      by (destruct (Home.license (Home.newErrors B s)); [reflexivity|discriminate H2]).
    destruct (proj1 Hd E1), (proj1 Hl E2). repeat split; assumption.
Qed.

End HomePage.

(** X12.  [handleLogoUpload] takes a file of at most [2 * 1024 * 1024]
    bytes as the office logo, with its preview, and refuses a larger one
    with an alert, leaving logo and preview as they were.  It changes no
    other field and stores nothing; without a file it does nothing. *)
Theorem logo_upload_limit :
  forall (B : Home.Browser) (s : Home.State) (file : Home.File),
    let s' := Home.handleLogoUpload B (Some file) s in
    ((Home.size file <= 2097152)%Z ->
       Home.officeLogo s' = Some file /\
       Home.logoPreview s' = Home.createObjectURL B file /\
       Home.effects s' = Home.effects s) /\
    ((2097152 < Home.size file)%Z ->
       Home.officeLogo s' = Home.officeLogo s /\
       Home.logoPreview s' = Home.logoPreview s /\
       Home.effects s' =
         Home.effects s ++ [Home.Alert "حجم الصورة يجب أن يكون أقل من 2MB"%string]) /\
    Home.propertyDetails s' = Home.propertyDetails s /\
    Home.propertyLicense s' = Home.propertyLicense s /\
    Home.officeName s' = Home.officeName s /\
    Home.isGenerating s' = Home.isGenerating s /\
    Home.stored s' = Home.stored s /\
    Home.handleLogoUpload B None s = s.
Proof.
  intros B s file. cbv zeta. unfold Home.handleLogoUpload.
  change (2 * 1024 * 1024)%Z with 2097152%Z.
  destruct (Z.gtb_spec (Home.size file) 2097152) as [Hgt|Hle]; cbn.
  - split; [intros H; lia|]. split; [intros _; repeat split|].
    unfold Home.stored. cbn. rewrite flat_map_app. cbn. rewrite app_nil_r.
    repeat split.
  - split; [intros _; repeat split|]. split; [intros H; lia|]. repeat split.
Qed.

Lemma logo_upload_limit_witness :
  let B := Home.sampleBrowser [] "data:image/png;base64,AAAA"%string in
  Home.officeLogo (Home.handleLogoUpload B (Some (Home.mkFile "logo.png" 2097152))
                     Home.initialState)
    = Some (Home.mkFile "logo.png" 2097152) /\
  Home.officeLogo (Home.handleLogoUpload B (Some (Home.mkFile "logo.png" 2097153))
                     Home.initialState)
    = None.
Proof.
  intros B. split.
  - apply (proj1 (@logo_upload_limit B Home.initialState
                    (Home.mkFile "logo.png" 2097152))).
    cbn. lia.
  - apply (proj1 (proj2 (@logo_upload_limit B Home.initialState
                           (Home.mkFile "logo.png" 2097153)))).
    cbn. lia.
Defined.

(** X13.  [handleGenerate] leaves the details error empty exactly when
    the details URL is not empty and parses, and likewise for the license.
    Unless both hold it has no effect and does not turn busy; it stores or
    routes only when both hold. *)
Theorem generate_needs_two_valid_urls :
  forall (B : Home.Browser) (s : Home.State),
    let s' := Home.handleGenerate B s in
    Home.errors s' = Home.newErrors B s /\
    (Home.details (Home.errors s') = ""%string <->
       Home.propertyDetails s <> ""%string /\
       Home.urlParses B (Home.propertyDetails s) = true) /\
    (Home.license (Home.errors s') = ""%string <->
       Home.propertyLicense s <> ""%string /\
       Home.urlParses B (Home.propertyLicense s) = true) /\
    (~ validForm B s ->
       Home.effects s' = Home.effects s /\
       Home.isGenerating s' = Home.isGenerating s) /\
    (Home.stored s' <> Home.stored s \/ Home.routes s' <> Home.routes s ->
       validForm B s).
Proof.
  intros B s. cbv zeta.
  assert (Herr : Home.errors (Home.handleGenerate B s) = Home.newErrors B s).
  { unfold Home.handleGenerate.
    destruct (negb (truthy (Home.details (Home.newErrors B s))) &&
              negb (truthy (Home.license (Home.newErrors B s))))%bool;
      [|reflexivity].
    cbn. destruct (Home.officeLogo s) as [file|];
      [destruct (Home.readAsDataURL B file)|]; try reflexivity;
      match goal with
      | |- context [Home.setItemThrows B ?k ?d] =>
          destruct (Home.setItemThrows B k d)
      end; reflexivity. }
  assert (Hinvalid : ~ validForm B s ->
            Home.handleGenerate B s = Home.setErrors (Home.newErrors B s) s).
  { intros Hn. unfold Home.handleGenerate.
    destruct (negb (truthy (Home.details (Home.newErrors B s))) &&
              negb (truthy (Home.license (Home.newErrors B s))))%bool eqn:Hv;
      [|reflexivity].
    exfalso. apply Hn. apply validForm_iff. exact Hv. }
  split; [exact Herr|]. rewrite Herr.
  destruct (newErrors_empty_iff B s) as [Hd Hl].
  split; [exact Hd|]. split; [exact Hl|]. split.
  - intros Hn. rewrite (Hinvalid Hn). split; reflexivity.
  - intros Hch.
    destruct (validForm_iff B s) as [_ Hback].
    destruct (negb (truthy (Home.details (Home.newErrors B s))) &&
              negb (truthy (Home.license (Home.newErrors B s))))%bool eqn:Hv.
    + apply Hback. reflexivity.
    + exfalso. unfold Home.handleGenerate in Hch. rewrite Hv in Hch.
      destruct Hch as [H|H]; apply H; reflexivity.
Qed.

Lemma generate_needs_two_valid_urls_witness :
  let B := Home.sampleBrowser ["https://example.com/a"%string] ""%string in
  let s' := Home.handleGenerate B Home.filled in
  Home.effects s' = [] /\ Home.isGenerating s' = false /\
  Home.license (Home.errors s') <> ""%string.
Proof.
  intros B s'.
  destruct (@generate_needs_two_valid_urls B Home.filled)
    as (_ & _ & Hl & Hinv & _).
  assert (Hn : ~ validForm B Home.filled).
  { intros (_ & _ & _ & H). vm_compute in H. discriminate H. }
  destruct (Hinv Hn) as [He Hg].
  split; [exact He|]. split; [exact Hg|].
  intros E. apply Hl in E. destruct E as [_ E]. vm_compute in E. discriminate E.
Defined.

Section Generating.

Variable B : Home.Browser.

(** The record [handleGenerate] is about to store. *)
Lemma handleGenerate_valid (s : Home.State) (logo : string) :
  validForm B s ->
  match Home.officeLogo s with
  | Some file => Home.readAsDataURL B file = Some logo
  | None => logo = ""%string
  end ->
  let key := ("qrData_" ++ string_of_Z (Home.dateNow B))%string in
  let r := mkQRData (Home.propertyDetails s) (Home.propertyLicense s)
                    (Home.officeName s) logo in
  let busy := Home.setIsGenerating true (Home.setErrors (Home.newErrors B s) s) in
  Home.handleGenerate B s =
    match Home.setItemThrows B key r with
    | Some error => Home.generateFailed error busy
    | None =>
        Home.effect (Home.RouterPush "/qr" [("dataKey"%string, key)])
          (Home.effect (Home.SetItem key r) busy)
    end.
Proof.
  intros Hv Hlogo. cbv zeta. unfold Home.handleGenerate.
  rewrite (proj1 (validForm_iff B s) Hv). cbn.
  assert (Hname : (if truthy (Home.officeName s) then Home.officeName s
                   else ""%string) = Home.officeName s)
    by (destruct (Home.officeName s); reflexivity).
  rewrite Hname.
  destruct (Home.officeLogo s) as [file|]; [rewrite Hlogo|subst logo];
    reflexivity.
Qed.

End Generating.

(** X14.  With a valid form, a logo that reads (or none) and room in
    storage, [handleGenerate] stores under the key [qrData_<clock>] the
    record of the two URLs, the office name and the data URL of the logo
    (empty without one), then pushes [/qr] with that key as [dataKey].  The
    form stays busy with its button disabled, and the record is complete
    for the QR page. *)
Theorem generate_stores_and_routes :
  forall (B : Home.Browser) (s : Home.State) (logo : string),
    validForm B s ->
    match Home.officeLogo s with
    | Some file => Home.readAsDataURL B file = Some logo
    | None => logo = ""%string
    end ->
    let key := ("qrData_" ++ string_of_Z (Home.dateNow B))%string in
    let r := mkQRData (Home.propertyDetails s) (Home.propertyLicense s)
                      (Home.officeName s) logo in
    Home.setItemThrows B key r = None ->
    let s' := Home.handleGenerate B s in
    Home.effects s' =
      Home.effects s ++
        [Home.SetItem key r; Home.RouterPush "/qr" [("dataKey"%string, key)]] /\
    Home.isGenerating s' = true /\
    Home.generateDisabled s' = true /\
    Home.errors s' = Home.mkErrors "" "" /\
    dataKeyOfQuery [("dataKey"%string, key)] = key /\
    truthy key = true /\
    incomplete (Some r) = false.
Proof.
  intros B s logo Hv Hlogo key r Hset s'. subst s'.
  rewrite (@handleGenerate_valid B s logo Hv Hlogo). fold key. fold r.
  rewrite Hset.
  destruct (newErrors_empty_iff B s) as [Hd Hl].
  destruct Hv as (H1 & H2 & H3 & H4).
  assert (He : Home.newErrors B s = Home.mkErrors "" "").
  { pose proof (proj2 Hd (conj H1 H2)) as E1.
    pose proof (proj2 Hl (conj H3 H4)) as E2.
    destruct (Home.newErrors B s) as [a b]. cbn in E1, E2. subst. reflexivity. }
  unfold Home.effect, Home.setIsGenerating, Home.setErrors,
         Home.generateDisabled. cbn.
  rewrite He, <- app_assoc. cbn.
  repeat split.
  - apply orb_true_r.
  - unfold incomplete. cbn.
    apply truthy_iff in H1. apply truthy_iff in H3. rewrite H1, H3. reflexivity.
Qed.

Lemma generate_stores_and_routes_witness :
  let B := Home.sampleBrowser ["https://example.com/a"%string;
                               "https://example.com/b"%string] ""%string in
  Home.stored (Home.handleGenerate B Home.filled)
    = [("qrData_1700000000000"%string,
        mkQRData "https://example.com/a" "https://example.com/b" "Office" "")].
Proof.
  intros B.
  destruct (@generate_stores_and_routes B Home.filled ""%string) as (He & _).
  - repeat split; discriminate.
  - reflexivity.
  - reflexivity.
  - unfold Home.stored. rewrite He. reflexivity.
Defined.

(** X15.  When storage throws, [handleGenerate] logs the error, alerts,
    stores nothing, pushes no route and gives the button back. *)
Theorem generate_recovers_from_full_storage :
  forall (B : Home.Browser) (s : Home.State) (logo : string) (error : Error),
    validForm B s ->
    match Home.officeLogo s with
    | Some file => Home.readAsDataURL B file = Some logo
    | None => logo = ""%string
    end ->
    Home.setItemThrows B ("qrData_" ++ string_of_Z (Home.dateNow B))%string
      (mkQRData (Home.propertyDetails s) (Home.propertyLicense s)
                (Home.officeName s) logo) = Some error ->
    let s' := Home.handleGenerate B s in
    Home.effects s' =
      Home.effects s ++
        [Home.ConsoleError "Error generating QR codes:" error;
         Home.Alert "حدث خطأ أثناء إنشاء الرموز"%string] /\
    Home.stored s' = Home.stored s /\
    Home.routes s' = Home.routes s /\
    Home.isGenerating s' = false /\
    Home.generateDisabled s' = false.
Proof.
  intros B s logo error Hv Hlogo Hset s'. subst s'.
  rewrite (@handleGenerate_valid B s logo Hv Hlogo), Hset.
  destruct Hv as (H1 & _ & H3 & _).
  apply truthy_iff in H1. apply truthy_iff in H3.
  unfold Home.generateFailed, Home.effect, Home.setIsGenerating,
         Home.setErrors, Home.generateDisabled, Home.stored, Home.routes.
  cbn. rewrite H1, H3, <- app_assoc, !flat_map_app. cbn.
  rewrite !app_nil_r. repeat split.
Qed.

(** X16.  When the reader never hands over the logo, [handleGenerate]
    stays suspended: no effect, the form busy.  From there on no run
    contains a click on the button, stores anything or pushes a route. *)
Theorem generate_hangs_on_unread_logo :
  forall (B : Home.Browser) (s : Home.State) (file : Home.File),
    validForm B s ->
    Home.officeLogo s = Some file ->
    Home.readAsDataURL B file = None ->
    let s' := Home.handleGenerate B s in
    Home.effects s' = Home.effects s /\
    Home.isGenerating s' = true /\
    forall evs s'',
      Home.run B s' evs s'' ->
      Home.isGenerating s'' = true /\
      Home.stored s'' = Home.stored s /\
      Home.routes s'' = Home.routes s /\
      ~ In Home.ClickGenerate evs.
Proof.
  intros B s file Hv Hfile Hread s'.
  assert (Hs' : s' = Home.setIsGenerating true
                       (Home.setErrors (Home.newErrors B s) s)).
  { subst s'. unfold Home.handleGenerate.
    rewrite (proj1 (validForm_iff B s) Hv). cbn. rewrite Hfile, Hread.
    reflexivity. }
  split; [rewrite Hs'; reflexivity|]. split; [rewrite Hs'; reflexivity|].
  assert (Hgen : forall s1 evs s2,
            Home.run B s1 evs s2 -> Home.isGenerating s1 = true ->
            Home.isGenerating s2 = true /\
            Home.stored s2 = Home.stored s1 /\
            Home.routes s2 = Home.routes s1 /\
            ~ In Home.ClickGenerate evs).
  { intros s1 evs s2 Hrun. induction Hrun as [s1|s1 ev s1' evs s2 Hstep Hrun IH].
    - intros Hb. repeat split; auto.
    - intros Hb.
      assert (Hone : Home.isGenerating s1' = true /\
                     Home.stored s1' = Home.stored s1 /\
                     Home.routes s1' = Home.routes s1 /\
                     ev <> Home.ClickGenerate).
      { destruct ev as [v|f|v|v|]; cbn in Hstep.
        - injection Hstep as <-. repeat split; [exact Hb|discriminate].
        - injection Hstep as <-. unfold Home.handleLogoUpload.
          destruct f as [f|]; [|repeat split; [exact Hb|discriminate]].
          destruct (Home.size f >? 2 * 1024 * 1024)%Z;
            unfold Home.stored, Home.routes; cbn;
            rewrite ?flat_map_app; cbn; rewrite ?app_nil_r;
            repeat split; try exact Hb; discriminate.
        - injection Hstep as <-. unfold Home.changeDetails. cbn.
          destruct (truthy (Home.details (Home.errors s1)));
            repeat split; try exact Hb; discriminate.
        - injection Hstep as <-. unfold Home.changeLicense. cbn.
          destruct (truthy (Home.license (Home.errors s1)));
            repeat split; try exact Hb; discriminate.
        - unfold Home.generateDisabled in Hstep. rewrite Hb in Hstep.
          rewrite orb_true_r in Hstep. discriminate Hstep. }
      destruct Hone as (Hb' & Hst & Hro & Hev).
      destruct (IH Hb') as (IH1 & IH2 & IH3 & IH4).
      repeat split; try congruence.
      intros [Hin|Hin]; [exact (Hev Hin)|exact (IH4 Hin)]. }
  intros evs s'' Hrun.
  destruct (Hgen s' evs s'' Hrun) as (G1 & G2 & G3 & G4).
  { rewrite Hs'. reflexivity. }
  rewrite Hs' in G2, G3. repeat split; assumption.
Qed.

Lemma generate_recovers_from_full_storage_witness :
  let full := mkError "QuotaExceededError" in
  let B := Home.mkBrowser (fun _ => true) (fun _ => ""%string)
             (fun _ => Some "data:image/png;base64,AAAA"%string)
             (fun _ _ => Some full) 1700000000000 in
  let s' := Home.handleGenerate B Home.filled in
  Home.stored s' = [] /\ Home.routes s' = [] /\
  Home.generateDisabled s' = false.
Proof.
  intros full B s'.
  destruct (@generate_recovers_from_full_storage B Home.filled ""%string full)
    as (_ & Hs & Hr & _ & Hd).
  - repeat split; discriminate.
  - reflexivity.
  - reflexivity.
  - split; [exact Hs|]. split; [exact Hr|exact Hd].
Defined.

Lemma generate_hangs_on_unread_logo_witness :
  let B := Home.mkBrowser (fun _ => true) (fun _ => ""%string)
             (fun _ => None) (fun _ _ => None) 1700000000000 in
  let s := Home.handleLogoUpload B (Some (Home.mkFile "logo.heic" 1000))
             Home.filled in
  Home.effects (Home.handleGenerate B s) = [] /\
  Home.isGenerating (Home.handleGenerate B s) = true.
Proof.
  intros B s.
  destruct (@generate_hangs_on_unread_logo B s (Home.mkFile "logo.heic" 1000))
    as (He & Hg & _).
  - repeat split; discriminate.
  - reflexivity.
  - reflexivity.
  - split; [exact He|exact Hg].
Defined.

Section GeneratingOnce.

Variable B : Home.Browser.

Lemma formInvariant_same (s s' : Home.State) :
  Home.stored s' = Home.stored s -> Home.routes s' = Home.routes s ->
  (Home.isGenerating s' = false -> Home.isGenerating s = false) ->
  formInvariant B s -> formInvariant B s'.
Proof.
  intros Hs Hr Hg (I1 & I2 & I3 & I4). unfold formInvariant.
  rewrite Hs, Hr. repeat split; auto.
Qed.

Lemma formInvariant_step (s s' : Home.State) (ev : Home.Event) :
  Home.step B s ev = Some s' -> formInvariant B s -> formInvariant B s'.
Proof.
  intros Hstep Hinv.
  destruct ev as [v|f|v|v|]; cbn in Hstep.
  - injection Hstep as <-. apply (@formInvariant_same s); auto.
  - injection Hstep as <-. destruct f as [f|]; [|exact Hinv].
    unfold Home.handleLogoUpload.
    destruct (Home.size f >? 2 * 1024 * 1024)%Z;
      apply (@formInvariant_same s); auto;
      unfold Home.stored, Home.routes; cbn; rewrite flat_map_app; cbn;
      apply app_nil_r.
  - injection Hstep as <-. apply (@formInvariant_same s); auto;
      unfold Home.changeDetails; cbn;
      destruct (truthy (Home.details (Home.errors s))); auto.
  - injection Hstep as <-. apply (@formInvariant_same s); auto;
      unfold Home.changeLicense; cbn;
      destruct (truthy (Home.license (Home.errors s))); auto.
  - destruct (Home.generateDisabled s) eqn:Hdis; [discriminate Hstep|].
    injection Hstep as <-.
    unfold Home.generateDisabled in Hdis.
    apply orb_false_elim in Hdis. destruct Hdis as [_ Hbusy].
    pose proof Hinv as (I1 & I2 & I3 & I4).
    pose proof (I1 Hbusy) as Hempty.
    assert (Hroutes : Home.routes s = []) by (rewrite I4, Hempty; reflexivity).
    destruct (negb (truthy (Home.details (Home.newErrors B s))) &&
              negb (truthy (Home.license (Home.newErrors B s))))%bool eqn:Hv.
    2:{ apply (@formInvariant_same s); [| | |exact Hinv];
          unfold Home.handleGenerate; rewrite Hv; auto. }
    pose proof (proj2 (validForm_iff B s) Hv) as Hvalid.
    assert (Hcases :
      (exists logo,
         match Home.officeLogo s with
         | Some file => Home.readAsDataURL B file = Some logo
         | None => logo = ""%string
         end) \/
      (exists file, Home.officeLogo s = Some file /\
                    Home.readAsDataURL B file = None)).
    { destruct (Home.officeLogo s) as [file|].
      - destruct (Home.readAsDataURL B file) as [logo|] eqn:Hr.
        + left. exists logo. reflexivity.
        + right. exists file. split; [reflexivity|exact Hr].
      - left. exists ""%string. reflexivity. }
    destruct Hcases as [[logo Hlogo] | [file [Hfile Hread]]].
    + rewrite (@handleGenerate_valid B s logo Hvalid Hlogo).
      destruct (Home.setItemThrows B _ _) as [error|].
      * unfold formInvariant, Home.generateFailed, Home.stored, Home.routes.
        cbn. rewrite !flat_map_app. cbn. rewrite !app_nil_r.
        fold (Home.stored s). fold (Home.routes s).
        rewrite Hempty, Hroutes. repeat split; auto.
      * unfold formInvariant, Home.stored, Home.routes.
        cbn. rewrite !flat_map_app. cbn.
        fold (Home.stored s). fold (Home.routes s).
        rewrite Hempty, Hroutes. cbn.
        split; [discriminate|]. split; [lia|]. split; [|reflexivity].
        constructor; [|constructor].
        destruct Hvalid as (H1 & H2 & H3 & H4).
        unfold storable, incomplete. cbn.
        apply truthy_iff in H1. apply truthy_iff in H3.
        rewrite H1, H3. repeat split; assumption.
    + apply (@formInvariant_same s); [| | |exact Hinv];
        unfold Home.handleGenerate; rewrite Hv; cbn;
        rewrite Hfile, Hread; cbn; try reflexivity; discriminate.
Qed.

End GeneratingOnce.

(** X17.  Along every run of the form at most one record is stored;
    every stored record is complete for the QR page and holds two URLs
    that parse, and the routes pushed are those of the stored keys. *)
Theorem form_generates_at_most_once :
  forall (B : Home.Browser) (evs : list Home.Event) (s : Home.State),
    Home.run B Home.initialState evs s ->
    (List.length (Home.stored s) <= 1)%nat /\
    Forall (fun kd =>
              incomplete (Some (snd kd)) = false /\
              Home.urlParses B (details (snd kd)) = true /\
              Home.urlParses B (license (snd kd)) = true)
           (Home.stored s) /\
    Home.routes s
      = map (fun kd => ("/qr"%string, [("dataKey"%string, fst kd)]))
            (Home.stored s).
Proof.
  intros B evs s Hrun.
  assert (Hinv : formInvariant B s).
  { assert (H0 : formInvariant B Home.initialState).
    { unfold formInvariant. cbn. repeat split; auto. }
    revert H0.
    induction Hrun as [s1|s1 ev s2 evs s3 Hstep Hrun IH]; intros H0.
    - exact H0.
    - apply IH. exact (@formInvariant_step B s1 s2 ev Hstep H0). }
  destruct Hinv as (_ & I2 & I3 & I4). repeat split; assumption.
Qed.

Lemma form_generates_at_most_once_witness :
  let B := Home.sampleBrowser ["https://example.com/a"%string;
                               "https://example.com/b"%string] ""%string in
  let s := Home.handleGenerate B
             (Home.changeLicense "https://example.com/b"
                (Home.changeDetails "https://example.com/a"
                   Home.initialState)) in
  Home.run B Home.initialState
    [Home.TypeDetails "https://example.com/a";
     Home.TypeLicense "https://example.com/b";
     Home.ClickGenerate] s /\
  Home.routes s
    = map (fun kd => ("/qr"%string, [("dataKey"%string, fst kd)]))
          (Home.stored s).
Proof.
  intros B s.
  assert (Hrun : Home.run B Home.initialState
                   [Home.TypeDetails "https://example.com/a";
                    Home.TypeLicense "https://example.com/b";
                    Home.ClickGenerate] s).
  { eapply Home.run_cons; [reflexivity|].
    eapply Home.run_cons; [reflexivity|].
    eapply Home.run_cons; [reflexivity|]. apply Home.run_nil. }
  destruct (@form_generates_at_most_once B _ s Hrun) as (_ & _ & Hr).
  split; [exact Hrun|exact Hr].
Defined.

(** ** From the form to the QR page *)

(** A record with both URLs, stored under a key that is not empty, is what
    a fresh page shows after its load effect. *)
Lemma load_renders_record {N : Type} {JSN : JSNumber N} (W : World N)
    (key : string) (d : QRData) :
  truthy key = true ->
  storedData W key = Parsed d ->
  details d <> ""%string -> license d <> ""%string ->
  render (loadQRData W key (@initialState N)) = MainView d false false.
Proof.
  intros Hk Hs Hd Hl. unfold loadQRData. rewrite Hk, Hs.
  apply truthy_iff in Hd. apply truthy_iff in Hl.
  unfold render, incomplete. cbn. rewrite Hd, Hl. reflexivity.
Qed.


(** X18.  From the form to the QR page: if storage gives back under the
    generated key the record that was stored, the QR page opened on the
    pushed route returns the main view of that record.  It is on screen,
    with both download buttons enabled, when [QRCodeSVG] can make both
    previews; when it cannot (the form puts no limit on the length of a
    URL) rendering throws and nothing is shown. *)
Theorem generated_record_is_rendered :
  forall (B : Home.Browser) (s : Home.State) (logo : string)
         (N : Type) (JSN : JSNumber N) (W : World N)
         (svgFits : QRCodeSVG -> bool) (innerWidth : option Z),
    validForm B s ->
    match Home.officeLogo s with
    | Some file => Home.readAsDataURL B file = Some logo
    | None => logo = ""%string
    end ->
    let key := ("qrData_" ++ string_of_Z (Home.dateNow B))%string in
    let r := mkQRData (Home.propertyDetails s) (Home.propertyLicense s)
                      (Home.officeName s) logo in
    Home.setItemThrows B key r = None ->
    storedData W key = Parsed r ->
    exists query,
      Home.routes (Home.handleGenerate B s)
        = Home.routes s ++ [("/qr"%string, query)] /\
      Home.stored (Home.handleGenerate B s) = Home.stored s ++ [(key, r)] /\
      let page := loadQRData W (dataKeyOfQuery query) initialState in
      screen svgFits innerWidth page =
        (if forallb svgFits (previews innerWidth r)
         then Shown (MainView r false false)
         else RenderThrows) /\
      (forallb svgFits (previews innerWidth r) = true ->
       step W page ClickImage = Some (downloadAsImage W page) /\
       step W page ClickPDF = Some (downloadAsPDF W page)).
Proof.
  intros B s logo N JSN W svgFits innerWidth Hv Hlogo key r Hset Hstored.
  exists [("dataKey"%string, key)].
  rewrite (@handleGenerate_valid B s logo Hv Hlogo). fold key. fold r.
  rewrite Hset.
  unfold Home.routes, Home.stored, Home.effect. cbn [Home.effects].
  rewrite !flat_map_app. cbn [flat_map app]. rewrite !app_nil_r.
  split; [reflexivity|]. split; [reflexivity|].
  cbv zeta.
  assert (Hkey : dataKeyOfQuery [("dataKey"%string, key)] = key)
    by reflexivity.
  rewrite Hkey.
  assert (Hrender : render (loadQRData W key (@initialState N))
                    = MainView r false false).
  { destruct Hv as (H1 & _ & H3 & _).
    apply load_renders_record; [reflexivity|exact Hstored|exact H1|exact H3]. }
  split.
  - unfold screen. rewrite Hrender. reflexivity.
  - intros _. unfold step. rewrite Hrender. split; reflexivity.
Qed.

Lemma generated_record_is_rendered_witness :
  let B := Home.sampleBrowser ["https://example.com/a"%string;
                               "https://example.com/b"%string] ""%string in
  let r := mkQRData "https://example.com/a" "https://example.com/b"
                    "Office" "" in
  let W := mkWorld (fun value (_ : QRCodeOptions float) => EncUrl value)
                   (fun _ => true) true
                   (fun key => if String.eqb key "qrData_1700000000000"
                               then Parsed r else NoItem)
                   1700000000500 (num 210) (num 297) in
  let short := fun q : QRCodeSVG => (String.length (svg_value q) <=? 1273)%nat in
  exists query,
    Home.routes (Home.handleGenerate B Home.filled) = [("/qr"%string, query)] /\
    screen short None (loadQRData W (dataKeyOfQuery query) initialState)
      = Shown (MainView r false false).
Proof.
  intros B r W short.
  destruct (@generated_record_is_rendered B Home.filled ""%string float _ W
              short None)
    as (query & Hr & _ & Hv & _).
  - repeat split; discriminate.
  - reflexivity.
  - reflexivity.
  - reflexivity.
  - exists query. split; [exact Hr|exact Hv].
Defined.
